(** * Translation-quality dashboard: the data-shaping core of [bababoi.py]

    The development embeds the data-shaping functions of the script:

    - [load_crowdin_data], lines 128-261: the loop that flattens every
      export file into records (the loader), followed by the derived
      columns computed on the frame (the metric deriver);
    - [create_temporal_data], lines 263-299: the per-date expansion (the
      temporal extractor).

    Conventions of the embedding.

    - A parsed JSON document is a value of [json]; a Python [dict] is an
      association list in insertion order, looked up from the front.
    - Python exceptions are values of [exn]; an expression that may raise
      has type [exn + A] ([inl] raises, [inr] returns).
    - Arithmetic is exact: integer cells are [Z], quotients are [Q].  The
      result of a pandas column division is an [fval], which adds to [Q]
      the two infinities and NaN that a division by zero produces there
      (pandas does not raise on it).  Rounding of binary floating point
      and the 64-bit width of integer columns are not represented. *)

From Stdlib Require Import ZArith QArith Qfield Lqa Lia.
From Stdlib Require Import List String Ascii Bool.
Import ListNotations.

Set Warnings "-register-all".

Local Open Scope string_scope.
Local Open Scope Z_scope.

(* ===================================================================== *)
(** * Python values *)
(* ===================================================================== *)

Module Py.

(** What [json.load] returns. *)
Inductive json : Type :=
| JNull
| JBool (b : bool)
| JInt (z : Z)
| JFloat (q : Q)
| JStr (s : string)
| JList (l : list json)
| JDict (kvs : list (string * json)).

Inductive exn : Type :=
| AttributeError
| TypeError
| ValueError
| ZeroDivisionError
| JSONDecodeError
| OSError.

Definition E (A : Type) : Type := (exn + A)%type.

Definition ret {A} (a : A) : E A := inr a.
Definition raise {A} (e : exn) : E A := inl e.
Definition bind {A B} (m : E A) (k : A -> E B) : E B :=
  match m with
  | inl e => inl e
  | inr a => k a
  end.

Declare Scope py_scope.
Delimit Scope py_scope with py.
Notation "x <- m ;; k" := (bind m (fun x => k))
  (at level 61, m at next level, right associativity) : py_scope.

(** [bool(v)] *)
Definition truthy (v : json) : bool :=
  match v with
  | JNull => false
  | JBool b => b
  | JInt z => negb (z =? 0)
  | JFloat q => negb (Qeq_bool q 0)
  | JStr s => negb (s =? "")%string
  | JList l => match l with [] => false | _ => true end
  | JDict kvs => match kvs with [] => false | _ => true end
  end.

Definition is_dict (v : json) : bool :=
  match v with JDict _ => true | _ => false end.

Fixpoint lookup (k : string) (kvs : list (string * json)) : option json :=
  match kvs with
  | [] => None
  | (k', v) :: rest => if (k =? k')%string then Some v else lookup k rest
  end.

(** [d.get(k, default)]: only a dict has the method. *)
Definition get (d : json) (k : string) (default : json) : E json :=
  match d with
  | JDict kvs =>
      match lookup k kvs with
      | Some v => ret v
      | None => ret default
      end
  | _ => raise AttributeError
  end.

(** [d.values()] *)
Definition values (d : json) : E (list json) :=
  match d with
  | JDict kvs => ret (map snd kvs)
  | _ => raise AttributeError
  end.

(** [any(xs)] *)
Definition any (xs : list json) : bool := existsb truthy xs.

Fixpoint chars (s : string) : list json :=
  match s with
  | EmptyString => []
  | String c rest => JStr (String c EmptyString) :: chars rest
  end.

(** What a [for x in v] loop visits: the elements of a list, the keys of
    a dict, the characters of a string; other values are not iterable. *)
Definition iter (v : json) : E (list json) :=
  match v with
  | JList l => ret l
  | JDict kvs => ret (map (fun kv => JStr (fst kv)) kvs)
  | JStr s => ret (chars s)
  | _ => raise TypeError
  end.

(** The numeric value of an [int], [bool] or [float]. *)
Definition num (v : json) : option Q :=
  match v with
  | JInt z => Some (inject_Z z)
  | JBool b => Some (if b then 1%Q else 0%Q)
  | JFloat q => Some q
  | _ => None
  end.

Definition is_float (v : json) : bool :=
  match v with JFloat _ => true | _ => false end.

Definition int_value (v : json) : Z :=
  match v with
  | JInt z => z
  | JBool true => 1
  | _ => 0
  end.

(** [a + b]: numbers add (an [int] unless one side is a [float]);
    strings and lists concatenate; everything else is a [TypeError]. *)
Definition add (a b : json) : E json :=
  match num a, num b with
  | Some x, Some y =>
      if is_float a || is_float b
      then ret (JFloat (x + y))
      else ret (JInt (int_value a + int_value b))
  | _, _ =>
      match a, b with
      | JStr s, JStr t => ret (JStr (s ++ t)%string)
      | JList l, JList m => ret (JList (l ++ m)%list)
      | _, _ => raise TypeError
      end
  end.

(** [a > 0] *)
Definition gt0 (a : json) : E bool :=
  match num a with
  | Some x => ret (negb (Qle_bool x 0))
  | None => raise TypeError
  end.

(** [a / b], always a [float]. *)
Definition truediv (a b : json) : E Q :=
  match num a, num b with
  | Some x, Some y =>
      if Qeq_bool y 0 then raise ZeroDivisionError else ret (x / y)%Q
  | _, _ => raise TypeError
  end.

(** [s.replace(old, new)] for a non-empty [old]: occurrences are found
    from the left and do not overlap.  [skip] counts the characters of
    the occurrence just replaced that are still to be passed over. *)
Fixpoint replace_from (old new : string) (skip : nat) (s : string) : string :=
  match s with
  | EmptyString => EmptyString
  | String c rest =>
      match skip with
      | S k => replace_from old new k rest
      | O =>
          if String.prefix old s
          then (new ++ replace_from old new (String.length old - 1)%nat rest)%string
          else String c (replace_from old new 0 rest)
      end
  end.

Definition replace (s old new : string) : string :=
  replace_from old new 0 s.

End Py.

Import Py.
Local Open Scope py_scope.

(* ===================================================================== *)
(** * Column values *)
(* ===================================================================== *)

(** The value of a float cell: a rational, an infinity, or NaN. *)
Inductive fval : Type :=
| Fin (q : Q)
| PInf
| NInf
| NaN.

Module FVal.

Definition is_finite (v : fval) : bool :=
  match v with Fin _ => true | _ => false end.

(** [v] is the finite number [q]. *)
Definition has_value (v : fval) (q : Q) : Prop :=
  match v with
  | Fin p => (p == q)%Q
  | _ => False
  end.

(** The sign of a rational: [Gt] positive, [Eq] zero, [Lt] negative. *)
Definition sign (q : Q) : comparison := (q ?= 0)%Q.

(** Division of an integer column by an integer column. *)
Definition div (a b : Z) : fval :=
  if b =? 0
  then match a ?= 0 with
       | Gt => PInf
       | Lt => NInf
       | Eq => NaN
       end
  else Fin (inject_Z a / inject_Z b).

Definition neg (v : fval) : fval :=
  match v with
  | Fin q => Fin (- q)
  | PInf => NInf
  | NInf => PInf
  | NaN => NaN
  end.

(** An infinity times a finite number. *)
Definition scale_inf (inf : fval) (q : Q) : fval :=
  match sign q with
  | Gt => inf
  | Lt => neg inf
  | Eq => NaN
  end.

Definition mul (x y : fval) : fval :=
  match x, y with
  | NaN, _ | _, NaN => NaN
  | Fin p, Fin q => Fin (p * q)
  | Fin p, inf => scale_inf inf p
  | inf, Fin q => scale_inf inf q
  | PInf, PInf | NInf, NInf => PInf
  | PInf, NInf | NInf, PInf => NInf
  end.

Definition add (x y : fval) : fval :=
  match x, y with
  | NaN, _ | _, NaN => NaN
  | Fin p, Fin q => Fin (p + q)
  | PInf, NInf | NInf, PInf => NaN
  | PInf, _ | _, PInf => PInf
  | NInf, _ | _, NInf => NInf
  end.

(** An integer constant met by a float column. *)
Definition of_Z (z : Z) : fval := Fin (inject_Z z).

(** [np.where(cond, x, y)] at one row; both [x] and [y] are already
    computed for the whole column when the selection is made. *)
Definition np_where (cond : bool) (x y : fval) : fval :=
  if cond then x else y.

(** [v] is finite and lies between [lo] and [hi]. *)
Definition between (lo hi : Q) (v : fval) : Prop :=
  match v with
  | Fin q => (lo <= q /\ q <= hi)%Q
  | _ => False
  end.

(** Order on finite values. *)
Definition le (x y : fval) : Prop :=
  match x, y with
  | Fin p, Fin q => (p <= q)%Q
  | _, _ => False
  end.

End FVal.

(* ===================================================================== *)
(** * The derived columns (lines 228-259) *)
(* ===================================================================== *)

Module Metrics.

Import FVal.

(** The five count cells of one row, when they hold integers. *)
Record Counts : Type := mkCounts {
  approved_without_edit : Z;
  post_edited_0_5 : Z;
  post_edited_6_10 : Z;
  post_edited_11_15 : Z;
  post_edited_other : Z
}.

Definition total_strings (c : Counts) : Z :=
  approved_without_edit c + post_edited_0_5 c
  + post_edited_6_10 c + post_edited_11_15 c + post_edited_other c.

Definition total_post_edited (c : Counts) : Z :=
  post_edited_0_5 c + post_edited_6_10 c
  + post_edited_11_15 c + post_edited_other c.

Definition approval_rate (c : Counts) : fval :=
  np_where (total_strings c >? 0)
    (mul (div (approved_without_edit c) (total_strings c)) (of_Z 100))
    (of_Z 0).

Definition human_intervention_rate (c : Counts) : fval :=
  np_where (total_strings c >? 0)
    (mul (div (total_post_edited c) (total_strings c)) (of_Z 100))
    (of_Z 0).

Definition critical_edit_rate (c : Counts) : fval :=
  np_where (total_strings c >? 0)
    (mul (div (post_edited_other c) (total_strings c)) (of_Z 100))
    (of_Z 0).

Definition minor_edit_rate (c : Counts) : fval :=
  np_where (total_strings c >? 0)
    (mul (div (post_edited_0_5 c) (total_strings c)) (of_Z 100))
    (of_Z 0).

(** The numerator of [quality_score]: an integer column. *)
Definition weighted_sum (c : Counts) : Z :=
  approved_without_edit c * 100
  + post_edited_0_5 c * 95
  + post_edited_6_10 c * 85
  + post_edited_11_15 c * 70
  + post_edited_other c * 40.

Definition quality_score (c : Counts) : fval :=
  np_where (total_strings c >? 0)
    (div (weighted_sum c) (total_strings c))
    (of_Z 0).

(** No [np.where] here. *)
Definition risk_score (c : Counts) : fval :=
  add
    (add (mul (critical_edit_rate c) (of_Z 3))
         (mul (mul (div (post_edited_11_15 c) (total_strings c)) (of_Z 100))
              (of_Z 2)))
    (mul (mul (div (post_edited_6_10 c) (total_strings c)) (of_Z 100))
         (of_Z 1)).

(** The count cells are counts: none is negative. *)
Definition nonneg (c : Counts) : Prop :=
  0 <= approved_without_edit c /\ 0 <= post_edited_0_5 c
  /\ 0 <= post_edited_6_10 c /\ 0 <= post_edited_11_15 c
  /\ 0 <= post_edited_other c.

(** The same row after [ka] strings have left the approved count and
    [k0], [k6], [k11] strings have left the three milder buckets, all of
    them for the "other" bucket.  [total_strings] is unchanged. *)
Definition move_to_other (c : Counts) (ka k0 k6 k11 : Z) : Counts :=
  {| approved_without_edit := approved_without_edit c - ka;
     post_edited_0_5 := post_edited_0_5 c - k0;
     post_edited_6_10 := post_edited_6_10 c - k6;
     post_edited_11_15 := post_edited_11_15 c - k11;
     post_edited_other := post_edited_other c + (ka + k0 + k6 + k11) |}.

End Metrics.

(* ===================================================================== *)
(** * The loader (lines 128-261) *)
(* ===================================================================== *)

Module Loader.

Inductive Method : Type := AI | MT | TM.

(** One element of [all_data].  A cell holds whatever the export holds at
    that place, or the default of the [get] that read it. *)
Record FlatRecord : Type := mkFlatRecord {
  project : json;
  language : json;
  language_code : json;
  method : Method;
  approved_without_edit : json;
  post_edited_0_5 : json;
  post_edited_6_10 : json;
  post_edited_11_15 : json;
  post_edited_other : json;
  weighted_units : json;
  temporal_data : json;
  date_from : json;
  date_to : json
}.

(** What the page is told through [st.warning] and [st.error]. *)
Inductive st_msg : Type :=
| st_warning (file_path : string) (e : exn)
| st_error (text : string).

(** A computation inside the [try]: it may extend [all_data] and it may
    raise; what was appended before an exception stays appended. *)
Definition L (A : Type) : Type := list FlatRecord -> list FlatRecord * E A.

Definition retL {A} (a : A) : L A := fun all_data => (all_data, inr a).

Definition bindL {A B} (m : L A) (k : A -> L B) : L B :=
  fun all_data =>
    match m all_data with
    | (all_data', inl e) => (all_data', inl e)
    | (all_data', inr a) => k a all_data'
    end.

Definition lift {A} (m : E A) : L A := fun all_data => (all_data, m).

Definition append (r : FlatRecord) : L unit :=
  fun all_data => ((all_data ++ [r])%list, inr tt).

Notation "x <~ m ;; k" := (bindL m (fun x => k))
  (at level 61, m at next level, right associativity) : py_scope.
Notation "m ;;; k" := (bindL m (fun _ => k))
  (at level 61, right associativity) : py_scope.

Fixpoint for_each {A} (xs : list A) (body : A -> L unit) : L unit :=
  match xs with
  | [] => retL tt
  | x :: rest => body x ;;; for_each rest body
  end.

(** The dict literal of lines 158-172 (and 180-194, 202-216). *)
Definition flat_record (m : Method)
    (project_name lang_name lang_code cumulative temporal date_range : json)
    : E FlatRecord :=
  a <- get cumulative "approvedWithoutEdit" (JInt 0) ;;
  pe <- get cumulative "postEdited" (JDict []) ;;
  p0 <- get pe "0-5" (JInt 0) ;;
  pe <- get cumulative "postEdited" (JDict []) ;;
  p6 <- get pe "6-10" (JInt 0) ;;
  pe <- get cumulative "postEdited" (JDict []) ;;
  p11 <- get pe "11-15" (JInt 0) ;;
  pe <- get cumulative "postEdited" (JDict []) ;;
  po <- get pe "other" (JInt 0) ;;
  w <- get cumulative "weightedUnits" (JInt 0) ;;
  dfrom <- get date_range "from" JNull ;;
  dto <- get date_range "to" JNull ;;
  ret {| project := project_name;
         language := lang_name;
         language_code := lang_code;
         method := m;
         approved_without_edit := a;
         post_edited_0_5 := p0;
         post_edited_6_10 := p6;
         post_edited_11_15 := p11;
         post_edited_other := po;
         weighted_units := w;
         temporal_data := temporal;
         date_from := dfrom;
         date_to := dto |}.

(** [cumulative and any(cumulative.values())]: [values] is only called
    on a truthy [cumulative]. *)
Definition has_data (cumulative : json) : E bool :=
  if truthy cumulative
  then vs <- values cumulative ;; ret (any vs)
  else ret false.

(** The three blocks "Process AI data", "Process MT data" and "Process TM
    data" are the same text up to the key read from [lang_data] and the
    ['method'] written to the record. *)
Definition method_block (key : string) (m : Method)
    (project_name lang_name lang_code date_range lang_data : json) : L unit :=
  m_data <~ lift (get lang_data key (JDict [])) ;;
  cumulative <~ lift (get m_data "cumulativeStatistics" (JDict [])) ;;
  temporal <~ lift (get m_data "temporalStatistics" (JDict [])) ;;
  keep <~ lift (has_data cumulative) ;;
  if keep
  then r <~ lift (flat_record m project_name lang_name lang_code
                    cumulative temporal date_range) ;;
       append r
  else retL tt.

(** The body of [for lang_data in data.get('data', [])]. *)
Definition language_block (project_name date_range lang_data : json) : L unit :=
  language <~ lift (get lang_data "language" (JDict [])) ;;
  lang_name <~ lift (get language "name" (JStr "Unknown")) ;;
  lang_code <~ lift (get language "code" (JStr "unknown")) ;;
  method_block "ai" AI project_name lang_name lang_code date_range lang_data ;;;
  method_block "mt" MT project_name lang_name lang_code date_range lang_data ;;;
  method_block "tm" TM project_name lang_name lang_code date_range lang_data.

(** A file of the directory: its path, and what [open] followed by
    [json.load] does on it. *)
Definition file : Type := (string * E json)%type.

(** The body of the [try] for one file. *)
Definition try_file (file_path : string) (content : E json) : L unit :=
  data <~ lift content ;;
  project_name <~ lift (get data "name" (JStr (replace file_path ".json" ""))) ;;
  date_range <~ lift (get data "dateRange" (JDict [])) ;;
  langs <~ lift (get data "data" (JList [])) ;;
  lang_list <~ lift (iter langs) ;;
  for_each lang_list (language_block project_name date_range).

(** [for file_path in json_files: try: ... except Exception as e:
    st.warning(...); continue] *)
Fixpoint load_loop (json_files : list file)
    (all_data : list FlatRecord) (log : list st_msg)
    : list FlatRecord * list st_msg :=
  match json_files with
  | [] => (all_data, log)
  | (file_path, content) :: rest =>
      match try_file file_path content all_data with
      | (all_data', inl e) =>
          load_loop rest all_data' (log ++ [st_warning file_path e])%list
      | (all_data', inr _) => load_loop rest all_data' log
      end
  end.

(** ** The frame and its derived columns *)

Definition int_cell (v : json) : option Z :=
  match v with
  | JInt z => Some z
  | _ => None
  end.

Definition counts_of (r : FlatRecord) : option Metrics.Counts :=
  match int_cell (approved_without_edit r), int_cell (post_edited_0_5 r),
        int_cell (post_edited_6_10 r), int_cell (post_edited_11_15 r),
        int_cell (post_edited_other r) with
  | Some a, Some p0, Some p6, Some p11, Some po =>
      Some (Metrics.mkCounts a p0 p6 p11 po)
  | _, _, _, _, _ => None
  end.

(** A row of the returned frame: the record and the columns added to it. *)
Record Row : Type := mkRow {
  flat : FlatRecord;
  total_strings : Z;
  total_post_edited : Z;
  approval_rate : fval;
  human_intervention_rate : fval;
  critical_edit_rate : fval;
  minor_edit_rate : fval;
  quality_score : fval;
  risk_score : fval
}.

Definition derive (r : FlatRecord) (c : Metrics.Counts) : Row :=
  {| flat := r;
     total_strings := Metrics.total_strings c;
     total_post_edited := Metrics.total_post_edited c;
     approval_rate := Metrics.approval_rate c;
     human_intervention_rate := Metrics.human_intervention_rate c;
     critical_edit_rate := Metrics.critical_edit_rate c;
     minor_edit_rate := Metrics.minor_edit_rate c;
     quality_score := Metrics.quality_score c;
     risk_score := Metrics.risk_score c |}.

Fixpoint derive_all (all_data : list FlatRecord) : option (list Row) :=
  match all_data with
  | [] => Some []
  | r :: rest =>
      match counts_of r, derive_all rest with
      | Some c, Some rows => Some (derive r c :: rows)
      | _, _ => None
      end
  end.

(** What the call returns.  The column arithmetic of lines 229-259 is
    embedded for integer count cells; a frame with any other cell in a
    count column ([NonIntegerCounts]) is left outside the embedding. *)
Inductive result : Type :=
| ReturnNone
| ReturnFrame (df : list Row)
| NonIntegerCounts.

Definition load_crowdin_data (json_files : list file) : result * list st_msg :=
  match json_files with
  | [] => (ReturnNone, [st_error "No JSON files found in the current directory!"])
  | _ =>
      let (all_data, log) := load_loop json_files [] [] in
      match all_data with
      | [] =>
          (ReturnNone,
           (log ++ [st_error "No valid data found in JSON files!"])%list)
      | _ =>
          match derive_all all_data with
          | Some df => (ReturnFrame df, log)
          | None => (NonIntegerCounts, log)
          end
      end
  end.

(** What is returned is decided by the records collected. *)
Definition finish (all_data : list FlatRecord) : result :=
  match all_data with
  | [] => ReturnNone
  | _ =>
      match derive_all all_data with
      | Some df => ReturnFrame df
      | None => NonIntegerCounts
      end
  end.

End Loader.

(* ===================================================================== *)
(** * The temporal extractor (lines 263-299) *)
(* ===================================================================== *)

Module Temporal.

(** One element of [temporal_records]. *)
Record TemporalRecord (Timestamp : Type) : Type := mkTemporalRecord {
  date : Timestamp;
  project : json;
  language : json;
  method : Loader.Method;
  approved_without_edit : json;
  total_strings : json;
  approval_rate : Q;
  intervention_rate : Q;
  critical_edits : json
}.

Arguments mkTemporalRecord {Timestamp}.
Arguments date {Timestamp}.
Arguments project {Timestamp}.
Arguments language {Timestamp}.
Arguments method {Timestamp}.
Arguments approved_without_edit {Timestamp}.
Arguments total_strings {Timestamp}.
Arguments approval_rate {Timestamp}.
Arguments intervention_rate {Timestamp}.
Arguments critical_edits {Timestamp}.

(** [stats.get('postEdited', {}).get(k, 0)] *)
Definition bucket (stats : json) (k : string) : E json :=
  pe <- get stats "postEdited" (JDict []) ;;
  get pe k (JInt 0).

(** Lines 272-276. *)
Definition total_day (stats : json) : E json :=
  a <- get stats "approvedWithoutEdit" (JInt 0) ;;
  p0 <- bucket stats "0-5" ;;
  s <- add a p0 ;;
  p6 <- bucket stats "6-10" ;;
  s <- add s p6 ;;
  p11 <- bucket stats "11-15" ;;
  s <- add s p11 ;;
  po <- bucket stats "other" ;;
  add s po.

(** The numerator of lines 280-283. *)
Definition post_edited_day (stats : json) : E json :=
  p0 <- bucket stats "0-5" ;;
  p6 <- bucket stats "6-10" ;;
  s <- add p0 p6 ;;
  p11 <- bucket stats "11-15" ;;
  s <- add s p11 ;;
  po <- bucket stats "other" ;;
  add s po.

Section Extractor.

(** [pd.to_datetime] is taken as given: it returns a timestamp or raises. *)
Variable Timestamp : Type.
Variable to_datetime : string -> E Timestamp.

(** The body of the inner [try] for one [(date_str, stats)] item:
    [Some] a record to append, [None] when the [if] is not taken. *)
Definition day_entry (row : Loader.Row) (date_str : string) (stats : json)
    : E (option (TemporalRecord Timestamp)) :=
  date_obj <- to_datetime date_str ;;
  total <- total_day stats ;;
  positive <- gt0 total ;;
  if positive : bool
  then
    a <- get stats "approvedWithoutEdit" (JInt 0) ;;
    q <- truediv a total ;;
    let approval_rate_day := (q * 100)%Q in
    pe <- post_edited_day stats ;;
    q' <- truediv pe total ;;
    let intervention_rate_day := (q' * 100)%Q in
    a' <- get stats "approvedWithoutEdit" (JInt 0) ;;
    po <- bucket stats "other" ;;
    ret (Some {| date := date_obj;
                 project := Loader.project (Loader.flat row);
                 language := Loader.language (Loader.flat row);
                 method := Loader.method (Loader.flat row);
                 approved_without_edit := a';
                 total_strings := total;
                 approval_rate := approval_rate_day;
                 intervention_rate := intervention_rate_day;
                 critical_edits := po |})
  else ret None.

(** [for date_str, stats in row['temporal_data'].items(): try: ...
    except: continue] *)
Fixpoint day_loop (row : Loader.Row) (entries : list (string * json))
    (temporal_records : list (TemporalRecord Timestamp))
    : list (TemporalRecord Timestamp) :=
  match entries with
  | [] => temporal_records
  | (date_str, stats) :: rest =>
      match day_entry row date_str stats with
      | inr (Some tr) => day_loop row rest (temporal_records ++ [tr])%list
      | inr None => day_loop row rest temporal_records
      | inl _ => day_loop row rest temporal_records
      end
  end.

(** [d.items()], for a value already known to be a dict. *)
Definition dict_items (v : json) : list (string * json) :=
  match v with
  | JDict kvs => kvs
  | _ => []
  end.

(** [for _, row in df.iterrows()] *)
Fixpoint row_loop (df : list Loader.Row)
    (temporal_records : list (TemporalRecord Timestamp))
    : list (TemporalRecord Timestamp) :=
  match df with
  | [] => temporal_records
  | row :: rest =>
      let temporal_data := Loader.temporal_data (Loader.flat row) in
      if truthy temporal_data && is_dict temporal_data
      then row_loop rest (day_loop row (dict_items temporal_data) temporal_records)
      else row_loop rest temporal_records
  end.

(** The returned frame, as the list of its rows; the empty frame is []. *)
Definition create_temporal_data (df : list Loader.Row)
    : list (TemporalRecord Timestamp) :=
  row_loop df [].

(** ** The same table, entry by entry *)

(** What one item of a row's temporal mapping contributes. *)
Definition emitted (row : Loader.Row) (entry : string * json)
    : list (TemporalRecord Timestamp) :=
  match day_entry row (fst entry) (snd entry) with
  | inr (Some tr) => [tr]
  | _ => []
  end.

(** What one row contributes. *)
Definition row_records (row : Loader.Row) : list (TemporalRecord Timestamp) :=
  let temporal_data := Loader.temporal_data (Loader.flat row) in
  if truthy temporal_data && is_dict temporal_data
  then flat_map (emitted row) (dict_items temporal_data)
  else [].

(** An entry is usable when its date string is accepted by
    [pd.to_datetime] and the total of its day counts is a positive
    number. *)
Definition usable (date_str : string) (stats : json) : Prop :=
  (exists date_obj, to_datetime date_str = inr date_obj)
  /\ (exists total q,
        total_day stats = inr total /\ num total = Some q /\ (0 < q)%Q).

(** The [total_strings] cell holds a positive number. *)
Definition positive_total (tr : TemporalRecord Timestamp) : Prop :=
  exists q, num (total_strings tr) = Some q /\ (0 < q)%Q.

End Extractor.

Arguments day_entry {Timestamp}.
Arguments day_loop {Timestamp}.
Arguments row_loop {Timestamp}.
Arguments create_temporal_data {Timestamp}.
Arguments emitted {Timestamp}.
Arguments row_records {Timestamp}.
Arguments usable {Timestamp}.
Arguments positive_total {Timestamp}.

End Temporal.

(* ===================================================================== *)
(** * Sample inputs *)
(* ===================================================================== *)

Module Sample.

(** The [<MethodStats>] shape of an export: every field present. *)
Definition method_stats (a p0 p6 p11 po w : Z) : json :=
  JDict [ ("approvedWithoutEdit", JInt a);
          ("postEdited",
           JDict [ ("0-5", JInt p0); ("6-10", JInt p6);
                   ("11-15", JInt p11); ("other", JInt po) ]);
          ("weightedUnits", JInt w) ].

(** An export with one language whose only method block is ["ai"]. *)
Definition export_ai (cumulative temporal : json) : json :=
  JDict [ ("name", JStr "demo");
          ("dateRange", JDict [ ("from", JStr "2024-01-01");
                                ("to", JStr "2024-01-31") ]);
          ("data",
           JList [ JDict [ ("language",
                            JDict [ ("name", JStr "French");
                                    ("code", JStr "fr") ]);
                           ("ai",
                            JDict [ ("cumulativeStatistics", cumulative);
                                    ("temporalStatistics", temporal) ]) ] ]) ].

Definition flat_ai (temporal : json) (a p0 p6 p11 po w : Z) : Loader.FlatRecord :=
  {| Loader.project := JStr "demo";
     Loader.language := JStr "French";
     Loader.language_code := JStr "fr";
     Loader.method := Loader.AI;
     Loader.approved_without_edit := JInt a;
     Loader.post_edited_0_5 := JInt p0;
     Loader.post_edited_6_10 := JInt p6;
     Loader.post_edited_11_15 := JInt p11;
     Loader.post_edited_other := JInt po;
     Loader.weighted_units := JInt w;
     Loader.temporal_data := temporal;
     Loader.date_from := JStr "2024-01-01";
     Loader.date_to := JStr "2024-01-31" |}.

(** A file whose first language entry is well formed and whose second
    entry is a string. *)
Definition export_then_garbage : json :=
  JDict [ ("data",
           JList [ JDict [ ("ai",
                            JDict [ ("cumulativeStatistics",
                                     method_stats 7 1 0 0 0 3) ]) ];
                   JStr "oops" ]) ].

(** The counts of the worked example of the specification. *)
Definition worked : Metrics.Counts := Metrics.mkCounts 80 10 5 3 2.

(** A block in which every count is zero. *)
Definition all_zero : json := method_stats 0 0 0 0 0 0.

(** A stand-in for [pd.to_datetime]: it accepts ten-character strings
    of digits with dashes at the fifth and eighth place. *)
Definition is_digit (c : ascii) : bool :=
  let n := nat_of_ascii c in (48 <=? n)%nat && (n <=? 57)%nat.

Definition iso_shape (s : string) : bool :=
  match list_ascii_of_string s with
  | [y1; y2; y3; y4; d1; m1; m2; d2; a1; a2] =>
      is_digit y1 && is_digit y2 && is_digit y3 && is_digit y4
      && Ascii.eqb d1 "-" && is_digit m1 && is_digit m2
      && Ascii.eqb d2 "-" && is_digit a1 && is_digit a2
  | _ => false
  end.

Definition to_datetime (s : string) : E string :=
  if iso_shape s then ret s else raise ValueError.

(** A temporal mapping with one usable day, one key that is not a date
    and one day without strings. *)
Definition temporal : json :=
  JDict [ ("2024-01-05", method_stats 8 1 1 0 0 0);
          ("soon", method_stats 5 0 0 0 0 0);
          ("2024-01-06", method_stats 0 0 0 0 0 0) ].

(** The same mapping without its usable day. *)
Definition temporal_unusable : json :=
  JDict [ ("soon", method_stats 5 0 0 0 0 0);
          ("2024-01-06", method_stats 0 0 0 0 0 0) ].

Definition row : Loader.Row :=
  Loader.derive (flat_ai temporal 80 10 5 3 2 0) worked.

Definition row_unusable : Loader.Row :=
  Loader.derive (flat_ai temporal_unusable 80 10 5 3 2 0) worked.

(** The record of the usable day of [row]. *)
Definition day_record : Temporal.TemporalRecord string :=
  {| Temporal.date := "2024-01-05";
     Temporal.project := JStr "demo";
     Temporal.language := JStr "French";
     Temporal.method := Loader.AI;
     Temporal.approved_without_edit := JInt 8;
     Temporal.total_strings := JInt 10;
     Temporal.approval_rate := (inject_Z 8 / inject_Z 10 * 100)%Q;
     Temporal.intervention_rate := (inject_Z 2 / inject_Z 10 * 100)%Q;
     Temporal.critical_edits := JInt 0 |}.

End Sample.

(* ===================================================================== *)
(** * Reading the frame: filters, shares and summaries *)
(* ===================================================================== *)

Module Column.

(** Comparisons of a float cell with a number, as a boolean mask is
    built from them: a NaN cell compares false. *)
Definition gtb (v : fval) (q : Q) : bool :=
  match v with
  | Fin p => negb (Qle_bool p q)
  | PInf => true
  | _ => false
  end.

Definition geb (v : fval) (q : Q) : bool :=
  match v with
  | Fin p => Qle_bool q p
  | PInf => true
  | _ => false
  end.

Definition ltb (v : fval) (q : Q) : bool :=
  match v with
  | Fin p => negb (Qle_bool q p)
  | NInf => true
  | _ => false
  end.

Definition leb (v : fval) (q : Q) : bool :=
  match v with
  | Fin p => Qle_bool p q
  | NInf => true
  | _ => false
  end.

Definition is_nan (v : fval) : bool :=
  match v with NaN => true | _ => false end.

(** A float divided by a positive integer. *)
Definition div_count (v : fval) (n : nat) : fval :=
  match v with
  | Fin q => Fin (q / inject_Z (Z.of_nat n))
  | other => other
  end.

(** [column.sum()] of a float column: NaN cells are left out. *)
Definition sum (vs : list fval) : fval :=
  fold_left FVal.add (filter (fun v => negb (is_nan v)) vs) (Fin 0).

(** [column.mean()]: NaN cells are left out; NaN when nothing is left. *)
Definition mean (vs : list fval) : fval :=
  match filter (fun v => negb (is_nan v)) vs with
  | [] => NaN
  | kept => div_count (sum vs) (List.length kept)
  end.

(** [column.sum()] of an integer column. *)
Definition sum_Z (zs : list Z) : Z := fold_left Z.add zs 0.

(** The integer cells of a column read from the records. *)
Fixpoint int_cells (cells : list json) : option (list Z) :=
  match cells with
  | [] => Some []
  | v :: rest =>
      match Loader.int_cell v, int_cells rest with
      | Some z, Some zs => Some (z :: zs)
      | _, _ => None
      end
  end.

End Column.

Module Dashboard.

(** ** [main], lines 344-349 *)

Section Filter.

(** The three sidebar selections, as the [isin] tests they stand for. *)
Variable in_projects : json -> bool.
Variable in_languages : json -> bool.
Variable in_methods : Loader.Method -> bool.

Definition selected (row : Loader.Row) : bool :=
  in_projects (Loader.project (Loader.flat row))
  && in_languages (Loader.language (Loader.flat row))
  && in_methods (Loader.method (Loader.flat row))
  && (Loader.total_strings row >? 0).

Definition filtered_df (df : list Loader.Row) : list Loader.Row :=
  filter selected df.

End Filter.

(** ** Shares of rows *)

(** [len(a) / len(b) * 100] on Python integers. *)
Definition share (k n : nat) : E Q :=
  if (n =? 0)%nat
  then raise ZeroDivisionError
  else ret (inject_Z (Z.of_nat k) / inject_Z (Z.of_nat n) * 100)%Q.

Definition count_rows (mask : Loader.Row -> bool) (df : list Loader.Row) : nat :=
  List.length (filter mask df).

(** [quality_analysis], lines 886-891. *)
Definition benchmarks (df : list Loader.Row) : E (list (string * Q)) :=
  excellent <- share (count_rows
                        (fun r => Column.gtb (Loader.approval_rate r) 90) df)
                     (List.length df) ;;
  good <- share (count_rows
                   (fun r => Column.geb (Loader.approval_rate r) 70
                             && Column.leb (Loader.approval_rate r) 90) df)
                (List.length df) ;;
  poor <- share (count_rows
                   (fun r => Column.geb (Loader.approval_rate r) 50
                             && Column.ltb (Loader.approval_rate r) 70) df)
                (List.length df) ;;
  critical <- share (count_rows
                       (fun r => Column.ltb (Loader.approval_rate r) 50) df)
                    (List.length df) ;;
  ret [ ("Excellent (>90%)", excellent);
        ("Good (70-90%)", good);
        ("Poor (50-70%)", poor);
        ("Critical (<50%)", critical) ].

(** [ai_mt_limitations], lines 635 and 645. *)
Definition failure_rate (df : list Loader.Row) : E Q :=
  share (count_rows (fun r => Column.ltb (Loader.approval_rate r) 50) df)
        (List.length df).

Definition high_intervention (df : list Loader.Row) : E Q :=
  share (count_rows
           (fun r => Column.gtb (Loader.human_intervention_rate r) 70) df)
        (List.length df).

(** ** [human_value_proposition], lines 541-550 *)

Record EditRow : Type := mkEditRow {
  Method : Loader.Method;
  Language : json;
  Edit_Type : string;
  Count : json
}.

Definition edit_rows (row : Loader.Row) : list EditRow :=
  let r := Loader.flat row in
  [ mkEditRow (Loader.method r) (Loader.language r)
      "Minor (0-5%)" (Loader.post_edited_0_5 r);
    mkEditRow (Loader.method r) (Loader.language r)
      "Moderate (6-10%)" (Loader.post_edited_6_10 r);
    mkEditRow (Loader.method r) (Loader.language r)
      "Major (11-15%)" (Loader.post_edited_11_15 r);
    mkEditRow (Loader.method r) (Loader.language r)
      "Critical (>15%)" (Loader.post_edited_other r) ].

(** [for _, row in df.iterrows(): if row['total_strings'] > 0:
    edit_data.extend([...])] *)
Fixpoint edit_data_loop (df : list Loader.Row) (edit_data : list EditRow)
    : list EditRow :=
  match df with
  | [] => edit_data
  | row :: rest =>
      if Loader.total_strings row >? 0
      then edit_data_loop rest (edit_data ++ edit_rows row)%list
      else edit_data_loop rest edit_data
  end.

Definition edit_data (df : list Loader.Row) : list EditRow :=
  edit_data_loop df [].

(** ** Means of the rate columns (lines 400, 409, 501, 1060) *)

Definition avg_intervention (df : list Loader.Row) : fval :=
  Column.mean (map Loader.human_intervention_rate df).

Definition critical_errors (df : list Loader.Row) : fval :=
  Column.mean (map Loader.critical_edit_rate df).

(** ** [business_impact], lines 1034-1060 *)

Definition cost_per_critical_error : Z := 100.
Definition cost_per_human_hour : Z := 50.
Definition strings_per_hour : Z := 200.

(** [roi_ratio]; [None] when a cell of the ['post_edited_other'] column
    is not an integer. *)
Definition roi_ratio (df : list Loader.Row) : option Q :=
  match Column.int_cells
          (map (fun r => Loader.post_edited_other (Loader.flat r)) df) with
  | None => None
  | Some others =>
      let total_critical_errors := Column.sum_Z others in
      let critical_error_cost :=
        total_critical_errors * cost_per_critical_error in
      let human_review_cost :=
        (inject_Z (Column.sum_Z (map Loader.total_post_edited df))
         / inject_Z strings_per_hour * inject_Z cost_per_human_hour)%Q in
      Some (if negb (Qle_bool human_review_cost 0)
            then (inject_Z critical_error_cost / human_review_cost)%Q
            else 0%Q)
  end.

(** [(1 - df['critical_edit_rate'].mean() / 100) * 100] *)
Definition risk_reduction (df : list Loader.Row) : fval :=
  FVal.mul
    (FVal.add (Fin 1)
       (FVal.neg (Column.div_count (critical_errors df) 100)))
    (Fin 100).

End Dashboard.

(** Rows as [load_crowdin_data] builds them: the derived columns of a
    record whose count cells are integers. *)
Definition from_loader (row : Loader.Row) : Prop :=
  exists c, Loader.counts_of (Loader.flat row) = Some c
            /\ row = Loader.derive (Loader.flat row) c.

(** The count cells of a row are non-negative integers. *)
Definition counted (row : Loader.Row) : Prop :=
  exists c, Loader.counts_of (Loader.flat row) = Some c
            /\ row = Loader.derive (Loader.flat row) c
            /\ Metrics.nonneg c.

Module Sample2.

(** The record of the first entry of [Sample.export_then_garbage]. *)
Definition flat_half : Loader.FlatRecord :=
  {| Loader.project := JStr "half";
     Loader.language := JStr "Unknown";
     Loader.language_code := JStr "unknown";
     Loader.method := Loader.AI;
     Loader.approved_without_edit := JInt 7;
     Loader.post_edited_0_5 := JInt 1;
     Loader.post_edited_6_10 := JInt 0;
     Loader.post_edited_11_15 := JInt 0;
     Loader.post_edited_other := JInt 0;
     Loader.weighted_units := JInt 3;
     Loader.temporal_data := JDict [];
     Loader.date_from := JNull;
     Loader.date_to := JNull |}.

(** A document with two language entries. *)
Definition two_entries : list json :=
  [ JDict [ ("language", JDict [ ("name", JStr "French") ]);
            ("ai", JDict [ ("cumulativeStatistics",
                            Sample.method_stats 1 2 3 4 5 6) ]);
            ("tm", JDict [ ("cumulativeStatistics",
                            Sample.method_stats 9 0 0 0 0 2) ]) ];
    JDict [ ("language", JDict [ ("code", JStr "de") ]);
            ("mt", JDict [ ("cumulativeStatistics", JDict []) ]) ] ].

Definition two_entries_kvs : list (string * json) :=
  [ ("name", JStr "demo"); ("data", JList two_entries) ].

End Sample2.

(** What one row adds to the post-editing breakdown. *)
Definition edit_contribution (row : Loader.Row) : list Dashboard.EditRow :=
  if Loader.total_strings row >? 0 then Dashboard.edit_rows row else [].

(** A computation of the loader that only appends to [all_data], and
    whose appended records and outcome do not depend on what [all_data]
    held before. *)
Definition appends_only {A : Type} (m : Loader.L A) : Prop :=
  forall all_data,
    m all_data = ((all_data ++ fst (m []))%list, snd (m [])).

(** The messages of a log that are warnings. *)
Definition is_warning (msg : Loader.st_msg) : bool :=
  match msg with
  | Loader.st_warning _ _ => true
  | Loader.st_error _ => false
  end.

(** A file stem as the loader can take a project name from it: it holds
    no dot. *)
Definition dotless (stem : string) : Prop :=
  forall c, In c (list_ascii_of_string stem) -> c <> "."%char.

(* ===================================================================== *)
(** * Arithmetic of the columns *)
(* ===================================================================== *)

Module FValFacts.

Import FVal.

Lemma div_nonzero (a b : Z) :
  b <> 0 -> div a b = Fin (inject_Z a / inject_Z b).
Proof.
  intros Hb. unfold div.
  destruct (Z.eqb_spec b 0) as [E0 | _]; [contradiction | reflexivity].
Qed.

Lemma inject_Z_pos (t : Z) : 0 < t -> (0 < inject_Z t)%Q.
Proof. intros H. change 0%Q with (inject_Z 0). now rewrite <- Zlt_Qlt. Qed.

(** A quotient of integers lies between two integers when the numerator
    lies between their multiples of the denominator. *)
Lemma quotient_between (lo hi a t : Z) :
  0 < t -> lo * t <= a -> a <= hi * t ->
  (inject_Z lo <= inject_Z a / inject_Z t
   /\ inject_Z a / inject_Z t <= inject_Z hi)%Q.
Proof.
  intros Ht Hlo Hhi.
  pose proof (inject_Z_pos t Ht) as Hq.
  split.
  - apply Qle_shift_div_l; [exact Hq |].
    rewrite <- inject_Z_mult. now rewrite <- Zle_Qle.
  - apply Qle_shift_div_r; [exact Hq |].
    rewrite <- inject_Z_mult. now rewrite <- Zle_Qle.
Qed.

Lemma quotient_mono (a b t : Z) :
  0 < t -> a <= b -> (inject_Z a / inject_Z t <= inject_Z b / inject_Z t)%Q.
Proof.
  intros Ht Hab.
  pose proof (inject_Z_pos t Ht) as Hq.
  apply Qle_shift_div_l; [exact Hq |].
  setoid_replace (inject_Z a / inject_Z t * inject_Z t)%Q with (inject_Z a).
  - now rewrite <- Zle_Qle.
  - field. intro H0. rewrite H0 in Hq. now apply Qlt_irrefl in Hq.
Qed.

(** A share of the total, as a percentage. *)
Lemma percentage_between (a t : Z) :
  0 < t -> 0 <= a -> a <= t ->
  between 0 100 (mul (div a t) (of_Z 100)).
Proof.
  intros Ht Ha Hat.
  rewrite div_nonzero by lia. cbn [mul of_Z between].
  destruct (quotient_between 0 1 a t Ht) as [H0 H1]; [lia | lia |].
  change (inject_Z 0) with 0%Q in H0. change (inject_Z 1) with 1%Q in H1.
  change (inject_Z 100) with 100%Q.
  split; lra.
Qed.

Lemma is_finite_add_l (x y : fval) :
  is_finite y = false -> is_finite (add x y) = false.
Proof. destruct x, y; simpl; intros H; congruence. Qed.

Lemma is_finite_mul_pos (x : fval) (z : Z) :
  0 < z -> is_finite x = false -> is_finite (mul x (of_Z z)) = false.
Proof.
  intros Hz Hx. pose proof (inject_Z_pos z Hz) as Hq.
  destruct x; simpl in *; try congruence;
    unfold scale_inf, sign; rewrite (proj1 (Qgt_alt (inject_Z z) 0) Hq); reflexivity.
Qed.

Lemma is_finite_div_zero (a : Z) : is_finite (div a 0) = false.
Proof. unfold div. simpl. destruct (a ?= 0); reflexivity. Qed.

End FValFacts.

(* ===================================================================== *)
(** * The derived columns: ranges, guards and the worked example *)
(* ===================================================================== *)

Module MetricsFacts.

Import FVal FValFacts Metrics.

Lemma guard_positive (c : Counts) :
  0 < total_strings c -> (total_strings c >? 0) = true.
Proof. intros H. apply Z.gtb_lt. lia. Qed.

Lemma guard_zero (c : Counts) :
  total_strings c = 0 -> (total_strings c >? 0) = false.
Proof. intros H. rewrite H. reflexivity. Qed.

Lemma total_split (c : Counts) :
  total_strings c = approved_without_edit c + total_post_edited c.
Proof. unfold total_strings, total_post_edited. lia. Qed.

Lemma move_to_other_total (c : Counts) (ka k0 k6 k11 : Z) :
  total_strings (move_to_other c ka k0 k6 k11) = total_strings c.
Proof. unfold total_strings, move_to_other. simpl. lia. Qed.

Lemma quality_score_positive (c : Counts) :
  0 < total_strings c ->
  quality_score c = Fin (inject_Z (weighted_sum c) / inject_Z (total_strings c)).
Proof.
  intros Ht. unfold quality_score.
  rewrite guard_positive by exact Ht. unfold np_where.
  apply div_nonzero. lia.
Qed.

Lemma quality_score_nonpositive (c : Counts) :
  total_strings c <= 0 -> quality_score c = Fin 0.
Proof.
  intros Ht. unfold quality_score.
  destruct (Z.gtb_spec (total_strings c) 0) as [H | _]; [lia | reflexivity].
Qed.

End MetricsFacts.

Import MetricsFacts.




(** C3, as amended. For the counts approved = 80, "0-5" = 10, "6-10" = 5,
    "11-15" = 3, other = 2 the derived columns are [total_strings] = 100,
    [approval_rate] = 80, [human_intervention_rate] = 20,
    [critical_edit_rate] = 2 and [quality_score] = 9665/100 = 96.65. *)
Theorem C3_worked_example :
  Metrics.total_strings Sample.worked = 100
  /\ FVal.has_value (Metrics.approval_rate Sample.worked) 80
  /\ FVal.has_value (Metrics.human_intervention_rate Sample.worked) 20
  /\ FVal.has_value (Metrics.critical_edit_rate Sample.worked) 2
  /\ FVal.has_value (Metrics.quality_score Sample.worked) (9665 # 100).
Proof. repeat split. Qed.

(** C3, as stated: the worked example does not give a [quality_score] of
    91.95; the weighted sum 80*100 + 10*95 + 5*85 + 3*70 + 2*40 is 9665,
    not 9195. *)
Lemma C3_quality_score_is_not_91_95 :
  ~ (FVal.has_value (Metrics.approval_rate Sample.worked) 80
     /\ FVal.has_value (Metrics.human_intervention_rate Sample.worked) 20
     /\ FVal.has_value (Metrics.critical_edit_rate Sample.worked) 2
     /\ FVal.has_value (Metrics.quality_score Sample.worked) (9195 # 100)).
Proof. intros (_ & _ & _ & H). vm_compute in H. discriminate H. Qed.

(** C2. [risk_score] is 3 times [critical_edit_rate] plus 2 times the
    percentage of "11-15" edits plus 1 time the percentage of "6-10"
    edits.  Its two divisions by [total_strings] stand outside any
    [np.where]: on a row with [total_strings] = 0, where every guarded
    sibling column is 0, the divisions are divisions by zero and
    [risk_score] is not a finite number (it is NaN when the counts are
    non-negative). *)
Theorem C2_risk_score_unguarded :
  forall c : Metrics.Counts,
    let t := Metrics.total_strings c in
    (t <> 0 ->
     exists cer r : Q,
       Metrics.critical_edit_rate c = Fin cer
       /\ Metrics.risk_score c = Fin r
       /\ (r == 3 * cer
               + 2 * (100 * (inject_Z (Metrics.post_edited_11_15 c) / inject_Z t))
               + 1 * (100 * (inject_Z (Metrics.post_edited_6_10 c) / inject_Z t)))%Q)
    /\ (t = 0 ->
        Metrics.approval_rate c = Fin 0
        /\ Metrics.human_intervention_rate c = Fin 0
        /\ Metrics.critical_edit_rate c = Fin 0
        /\ Metrics.minor_edit_rate c = Fin 0
        /\ Metrics.quality_score c = Fin 0
        /\ Metrics.risk_score c
           = FVal.add
               (FVal.add (Fin (0 * 3))
                  (FVal.mul (FVal.mul (FVal.div (Metrics.post_edited_11_15 c) 0)
                               (Fin 100)) (Fin 2)))
               (FVal.mul (FVal.mul (FVal.div (Metrics.post_edited_6_10 c) 0)
                            (Fin 100)) (Fin 1))
        /\ FVal.is_finite (Metrics.risk_score c) = false)
    /\ (t = 0 -> Metrics.nonneg c -> Metrics.risk_score c = NaN).
Proof.
  intros c t. subst t. split; [| split].
  - intros Ht.
    assert (Hcer : exists cer, Metrics.critical_edit_rate c = Fin cer).
    { unfold Metrics.critical_edit_rate, FVal.np_where.
      destruct (Metrics.total_strings c >? 0).
      - rewrite FValFacts.div_nonzero by exact Ht. eexists. reflexivity.
      - eexists. reflexivity. }
    destruct Hcer as [cer Hcer]. exists cer.
    unfold Metrics.risk_score. rewrite Hcer.
    rewrite !FValFacts.div_nonzero by exact Ht.
    cbn [FVal.mul FVal.add FVal.of_Z].
    eexists. split; [reflexivity | split; [reflexivity |]].
    change (inject_Z 3) with 3%Q. change (inject_Z 2) with 2%Q.
    change (inject_Z 1) with 1%Q. change (inject_Z 100) with 100%Q.
    ring.
  - intros Ht.
    unfold Metrics.approval_rate, Metrics.human_intervention_rate,
      Metrics.critical_edit_rate, Metrics.minor_edit_rate,
      Metrics.quality_score, Metrics.risk_score, Metrics.critical_edit_rate.
    rewrite !guard_zero by exact Ht. rewrite !Ht.
    cbn [FVal.np_where FVal.of_Z].
    repeat (split; [reflexivity |]).
    apply FValFacts.is_finite_add_l.
    change (Fin 100) with (FVal.of_Z 100). change (Fin 1) with (FVal.of_Z 1).
    apply FValFacts.is_finite_mul_pos; [lia |].
    apply FValFacts.is_finite_mul_pos; [lia |].
    apply FValFacts.is_finite_div_zero.
  - intros Ht (Ha & H0 & H6 & H11 & Ho).
    assert (E11 : Metrics.post_edited_11_15 c = 0)
      by (unfold Metrics.total_strings in Ht; lia).
    assert (E6 : Metrics.post_edited_6_10 c = 0)
      by (unfold Metrics.total_strings in Ht; lia).
    unfold Metrics.risk_score, Metrics.critical_edit_rate.
    rewrite guard_zero by exact Ht. rewrite Ht, E11, E6. reflexivity.
Qed.

(* ===================================================================== *)
(** * The loader: which blocks become rows, and what a bad file does *)
(* ===================================================================== *)

Module LoaderFacts.

Import Loader.

(** The test of line 157 passes exactly on a dict one of whose values is
    truthy. *)
Lemma has_data_true_iff (cumulative : json) :
  has_data cumulative = inr true
  <-> exists kvs, cumulative = JDict kvs
                  /\ existsb truthy (map snd kvs) = true.
Proof.
  unfold has_data. split.
  - destruct cumulative as [| b | z | q | s | l | kvs];
      try (destruct (truthy _); cbn; discriminate).
    destruct kvs as [| kv kvs]; [discriminate |].
    intros H. exists (kv :: kvs). split; [reflexivity |].
    cbn in H. injection H as H. exact H.
  - intros (kvs & -> & H). destruct kvs as [| kv kvs]; [discriminate |].
    cbn. cbn in H. rewrite H. reflexivity.
Qed.

(** On the documented shape the nested "postEdited" dict is itself a
    truthy value, so the test passes whatever the counts are. *)
Lemma has_data_method_stats (a p0 p6 p11 po w : Z) :
  has_data (Sample.method_stats a p0 p6 p11 po w) = inr true.
Proof.
  unfold has_data, Sample.method_stats. simpl. unfold any. simpl.
  destruct (negb (a =? 0)); reflexivity.
Qed.

(** A block that passes the test appends its record; a block that fails
    it leaves [all_data] as it was. *)
Lemma method_block_keeps (key : string) (m : Method)
    (project_name lang_name lang_code date_range lang_data : json)
    (m_data cumulative temporal : json) (r : FlatRecord)
    (all_data : list FlatRecord) :
  get lang_data key (JDict []) = inr m_data ->
  get m_data "cumulativeStatistics" (JDict []) = inr cumulative ->
  get m_data "temporalStatistics" (JDict []) = inr temporal ->
  has_data cumulative = inr true ->
  flat_record m project_name lang_name lang_code cumulative temporal date_range
  = inr r ->
  method_block key m project_name lang_name lang_code date_range lang_data
    all_data
  = ((all_data ++ [r])%list, inr tt).
Proof.
  intros G1 G2 G3 Hd Hr. unfold method_block, bindL, lift.
  rewrite G1, G2, G3, Hd, Hr. reflexivity.
Qed.

Lemma method_block_drops (key : string) (m : Method)
    (project_name lang_name lang_code date_range lang_data : json)
    (m_data cumulative temporal : json) (all_data : list FlatRecord) :
  get lang_data key (JDict []) = inr m_data ->
  get m_data "cumulativeStatistics" (JDict []) = inr cumulative ->
  get m_data "temporalStatistics" (JDict []) = inr temporal ->
  has_data cumulative = inr false ->
  method_block key m project_name lang_name lang_code date_range lang_data
    all_data
  = (all_data, inr tt).
Proof.
  intros G1 G2 G3 Hd. unfold method_block, bindL, lift.
  rewrite G1, G2, G3, Hd. reflexivity.
Qed.

(** A block with a count that is not zero passes the test, in the
    documented shape or with fields left out. *)
Lemma has_data_nonzero_count (kvs : list (string * json)) (k : string) (z : Z) :
  In (k, JInt z) kvs -> z <> 0 -> has_data (JDict kvs) = inr true.
Proof.
  intros Hin Hz. apply has_data_true_iff. exists kvs. split; [reflexivity |].
  apply existsb_exists. exists (JInt z). split.
  - apply in_map_iff. exists (k, JInt z). now split.
  - simpl. now destruct (Z.eqb_spec z 0).
Qed.

(** A missing or empty block, and a block all of whose values are zero
    or empty, fail the test. *)
Lemma has_data_empty : has_data (JDict []) = inr false.
Proof. reflexivity. Qed.

Lemma has_data_flat_zero :
  has_data (JDict [ ("approvedWithoutEdit", JInt 0);
                    ("postEdited", JDict []);
                    ("weightedUnits", JInt 0) ]) = inr false.
Proof. reflexivity. Qed.

Example replace_extension :
  replace "fr.json.backup.json" ".json" "" = "fr.backup".
Proof. reflexivity. Qed.

(** An exception in the middle of a file keeps what the file had already
    appended: only a file that cannot be read at all adds nothing. *)
Example partially_read_file :
  load_loop [("half.json", inr Sample.export_then_garbage)] [] []
  = ([ {| project := JStr "half";
          language := JStr "Unknown";
          language_code := JStr "unknown";
          method := AI;
          approved_without_edit := JInt 7;
          post_edited_0_5 := JInt 1;
          post_edited_6_10 := JInt 0;
          post_edited_11_15 := JInt 0;
          post_edited_other := JInt 0;
          weighted_units := JInt 3;
          temporal_data := JDict [];
          date_from := JNull;
          date_to := JNull |} ],
     [st_warning "half.json" AttributeError]).
Proof. reflexivity. Qed.

(** The records collected do not depend on the messages logged so far. *)
Lemma load_loop_records_log (json_files : list file) :
  forall all_data log log',
    fst (load_loop json_files all_data log)
    = fst (load_loop json_files all_data log').
Proof.
  induction json_files as [| [file_path content] rest IH];
    intros all_data log log'; simpl.
  - reflexivity.
  - destruct (try_file file_path content all_data) as [all_data' [e | u]];
      apply IH.
Qed.

(** Messages are only ever added at the end of the log. *)
Lemma load_loop_log_grows (json_files : list file) :
  forall all_data log,
    exists msgs, snd (load_loop json_files all_data log) = (log ++ msgs)%list.
Proof.
  induction json_files as [| [file_path content] rest IH];
    intros all_data log; simpl.
  - exists []. now rewrite app_nil_r.
  - destruct (try_file file_path content all_data) as [all_data' [e | u]].
    + destruct (IH all_data' (log ++ [st_warning file_path e])%list)
        as [msgs Hm].
      exists (st_warning file_path e :: msgs).
      rewrite Hm, <- app_assoc. reflexivity.
    + apply IH.
Qed.

(** A file on which [open] or [json.load] raises leaves [all_data] as it
    was. *)
Lemma try_file_unreadable (file_path : string) (e : exn)
    (all_data : list FlatRecord) :
  try_file file_path (inl e) all_data = (all_data, inl e).
Proof. reflexivity. Qed.

Lemma load_loop_skips_unreadable (pre post : list file)
    (file_path : string) (e : exn) :
  forall all_data log,
    fst (load_loop (pre ++ (file_path, inl e) :: post) all_data log)
    = fst (load_loop (pre ++ post) all_data log)
    /\ In (st_warning file_path e)
          (snd (load_loop (pre ++ (file_path, inl e) :: post) all_data log)).
Proof.
  induction pre as [| [p c] pre IH]; intros all_data log.
  - cbn [app load_loop]. rewrite try_file_unreadable. split.
    + apply load_loop_records_log.
    + destruct (load_loop_log_grows post all_data
                  (log ++ [st_warning file_path e])%list) as [msgs ->].
      rewrite !in_app_iff. left. right. left. reflexivity.
  - cbn [app load_loop].
    destruct (try_file p c all_data) as [all_data' [e' | u]]; apply IH.
Qed.

Lemma load_crowdin_data_result (json_files : list file) :
  fst (load_crowdin_data json_files)
  = finish (fst (load_loop json_files [] [])).
Proof.
  unfold load_crowdin_data, finish.
  destruct json_files as [| f rest]; [reflexivity |].
  destruct (load_loop (f :: rest) [] []) as [all_data log].
  cbn [fst]. destruct all_data; [reflexivity |].
  destruct (derive_all _); reflexivity.
Qed.

(** When no record is collected the call returns [None], and the last
    message is an [st.error]. *)
Lemma load_crowdin_data_no_records (json_files : list Loader.file) :
  fst (Loader.load_loop json_files [] []) = [] ->
  exists warnings text,
    Loader.load_crowdin_data json_files
    = (Loader.ReturnNone, (warnings ++ [Loader.st_error text])%list).
Proof.
  intros H. unfold Loader.load_crowdin_data.
  destruct json_files as [| f rest].
  - exists [], "No JSON files found in the current directory!". reflexivity.
  - destruct (Loader.load_loop (f :: rest) [] []) as [all_data log].
    cbn [fst] in H. subst all_data.
    exists log, "No valid data found in JSON files!". reflexivity.
Qed.

End LoaderFacts.

(** C1. The export whose only block has the documented shape with every
    count equal to zero is loaded into a frame of one row: the block is
    not dropped, its row has [total_strings] = 0 and a NaN [risk_score]. *)
Theorem C1_all_zero_block_is_emitted :
  Loader.load_crowdin_data
    [("demo.json", inr (Sample.export_ai Sample.all_zero (JDict [])))]
  = (Loader.ReturnFrame
       [Loader.derive (Sample.flat_ai (JDict []) 0 0 0 0 0 0)
                      (Metrics.mkCounts 0 0 0 0 0)],
     [])
  /\ Metrics.total_strings (Metrics.mkCounts 0 0 0 0 0) = 0
  /\ Metrics.risk_score (Metrics.mkCounts 0 0 0 0 0) = NaN.
Proof. repeat split. Qed.

(** C8. In a batch one of whose files cannot be read as JSON, the bad
    file adds a warning to the log and nothing to the records: the
    records collected, and the value returned, are those of the batch
    without that file. *)
Theorem C8_unreadable_file_is_skipped :
  forall (pre post : list Loader.file) (file_path : string) (e : exn),
    let batch := (pre ++ (file_path, inl e) :: post)%list in
    fst (Loader.load_loop batch [] [])
    = fst (Loader.load_loop (pre ++ post) [] [])
    /\ fst (Loader.load_crowdin_data batch)
       = fst (Loader.load_crowdin_data (pre ++ post))
    /\ In (Loader.st_warning file_path e)
          (snd (Loader.load_crowdin_data batch)).
Proof.
  intros pre post file_path e batch. subst batch.
  destruct (LoaderFacts.load_loop_skips_unreadable pre post file_path e [] [])
    as [Hrec Hlog].
  split; [exact Hrec | split].
  - rewrite !LoaderFacts.load_crowdin_data_result. now rewrite Hrec.
  - unfold Loader.load_crowdin_data.
    destruct (pre ++ (file_path, inl e) :: post)%list as [| f rest] eqn:Eb.
    + destruct pre; discriminate.
    + destruct (Loader.load_loop (f :: rest) [] []) as [all_data log].
      cbn [snd] in Hlog.
      destruct all_data.
      * cbn [snd]. apply in_or_app. now left.
      * destruct (Loader.derive_all _); exact Hlog.
Qed.

(* ===================================================================== *)
(** * Python arithmetic on numbers *)
(* ===================================================================== *)

Module PyFacts.

Lemma int_value_num (v : json) (q : Q) :
  num v = Some q -> is_float v = false -> q = inject_Z (int_value v).
Proof.
  destruct v as [| b | z | f | s | l | kvs]; simpl; intros H F;
    try discriminate; injection H as <-; [destruct b |]; reflexivity.
Qed.

(** A sum that is a number is a sum of numbers. *)
Lemma add_num_inv (a b v : json) (q : Q) :
  add a b = inr v -> num v = Some q ->
  exists x y, num a = Some x /\ num b = Some y /\ (q == x + y)%Q.
Proof.
  unfold add. intros H Hv.
  destruct (num a) as [x |] eqn:Ea, (num b) as [y |] eqn:Eb.
  - exists x, y. split; [reflexivity | split; [reflexivity |]].
    destruct (is_float a || is_float b) eqn:F.
    + injection H as <-. simpl in Hv. injection Hv as <-. reflexivity.
    + apply orb_false_iff in F. destruct F as [Fa Fb].
      injection H as <-. simpl in Hv. injection Hv as <-.
      rewrite (int_value_num a x Ea Fa), (int_value_num b y Eb Fb).
      rewrite inject_Z_plus. reflexivity.
  - destruct a, b; try discriminate H; injection H as <-; discriminate Hv.
  - destruct a, b; try discriminate H; injection H as <-; discriminate Hv.
  - destruct a, b; try discriminate H; injection H as <-; discriminate Hv.
Qed.

(** Numbers add to a number. *)
Lemma add_num (a b : json) (x y : Q) :
  num a = Some x -> num b = Some y ->
  exists v q, add a b = inr v /\ num v = Some q /\ (q == x + y)%Q.
Proof.
  intros Ea Eb. unfold add. rewrite Ea, Eb.
  destruct (is_float a || is_float b) eqn:F.
  - exists (JFloat (x + y)), (x + y)%Q. repeat split; reflexivity.
  - apply orb_false_iff in F. destruct F as [Fa Fb].
    exists (JInt (int_value a + int_value b)),
           (inject_Z (int_value a + int_value b)).
    split; [reflexivity | split; [reflexivity |]].
    rewrite (int_value_num a x Ea Fa), (int_value_num b y Eb Fb).
    rewrite inject_Z_plus. reflexivity.
Qed.

Lemma gt0_true_iff (v : json) :
  gt0 v = inr true <-> exists q, num v = Some q /\ (0 < q)%Q.
Proof.
  unfold gt0. split.
  - destruct (num v) as [q |]; [| discriminate].
    intros H. injection H as H. exists q. split; [reflexivity |].
    apply negb_true_iff in H. apply Qnot_le_lt. intros Hle.
    apply Qle_bool_iff in Hle. congruence.
  - intros (q & -> & Hq).
    destruct (Qle_bool q 0) eqn:E; [| reflexivity].
    apply Qle_bool_iff in E. lra.
Qed.

Lemma truediv_inv (a b : json) (r : Q) :
  truediv a b = inr r ->
  exists x y, num a = Some x /\ num b = Some y /\ r = (x / y)%Q.
Proof.
  unfold truediv. destruct (num a) as [x |], (num b) as [y |];
    try discriminate.
  destruct (Qeq_bool y 0); [discriminate |].
  intros H. injection H as <-. now exists x, y.
Qed.

Lemma truediv_positive (a b : json) (x y : Q) :
  num a = Some x -> num b = Some y -> (0 < y)%Q ->
  truediv a b = inr (x / y)%Q.
Proof.
  intros Ea Eb Hy. unfold truediv. rewrite Ea, Eb.
  destruct (Qeq_bool y 0) eqn:E; [| reflexivity].
  apply Qeq_bool_iff in E. lra.
Qed.

(** Two shares that make up the whole are percentages adding to 100. *)
Lemma shares_add_to_100 (qa qpe q : Q) :
  (0 < q)%Q -> (q == qa + qpe)%Q ->
  (qa / q * 100 + qpe / q * 100 == 100)%Q.
Proof.
  intros Hq Hsum.
  assert (Hne : ~ (q == 0)%Q) by lra.
  setoid_replace qpe with (q - qa)%Q by lra.
  field. exact Hne.
Qed.

End PyFacts.

(* ===================================================================== *)
(** * The temporal extractor: one record per usable entry *)
(* ===================================================================== *)

Module TemporalFacts.

Import Temporal PyFacts.

(** The steps of [total_day], when it returns. *)
Lemma total_day_inv (stats total : json) :
  total_day stats = inr total ->
  exists a p0 p6 p11 po s1 s2 s3,
    get stats "approvedWithoutEdit" (JInt 0) = inr a
    /\ bucket stats "0-5" = inr p0
    /\ bucket stats "6-10" = inr p6
    /\ bucket stats "11-15" = inr p11
    /\ bucket stats "other" = inr po
    /\ add a p0 = inr s1 /\ add s1 p6 = inr s2
    /\ add s2 p11 = inr s3 /\ add s3 po = inr total.
Proof.
  unfold total_day. intros H.
  destruct (get stats "approvedWithoutEdit" (JInt 0)) as [? | a];
    [discriminate |]; cbn [bind] in H.
  destruct (bucket stats "0-5") as [? | p0]; [discriminate |]; cbn [bind] in H.
  destruct (add a p0) as [? | s1] eqn:E1; [discriminate |]; cbn [bind] in H.
  destruct (bucket stats "6-10") as [? | p6]; [discriminate |]; cbn [bind] in H.
  destruct (add s1 p6) as [? | s2] eqn:E2; [discriminate |]; cbn [bind] in H.
  destruct (bucket stats "11-15") as [? | p11]; [discriminate |]; cbn [bind] in H.
  destruct (add s2 p11) as [? | s3] eqn:E3; [discriminate |]; cbn [bind] in H.
  destruct (bucket stats "other") as [? | po]; [discriminate |]; cbn [bind] in H.
  exists a, p0, p6, p11, po, s1, s2, s3. repeat split; assumption.
Qed.

(** When the day total is a number, so are the approved count and the
    post-edited sum, and the total is their sum. *)
Lemma total_day_parts (stats total : json) (q : Q) :
  total_day stats = inr total -> num total = Some q ->
  exists a qa pe qpe po,
    get stats "approvedWithoutEdit" (JInt 0) = inr a /\ num a = Some qa
    /\ post_edited_day stats = inr pe /\ num pe = Some qpe
    /\ bucket stats "other" = inr po
    /\ (q == qa + qpe)%Q.
Proof.
  intros Ht Hq.
  destruct (total_day_inv stats total Ht)
    as (a & p0 & p6 & p11 & po & s1 & s2 & s3
        & Ga & G0 & G6 & G11 & Go & A1 & A2 & A3 & A4).
  destruct (add_num_inv _ _ _ _ A4 Hq) as (q3 & qo & N3 & No & Q4).
  destruct (add_num_inv _ _ _ _ A3 N3) as (q2 & q11 & N2 & N11 & Q3).
  destruct (add_num_inv _ _ _ _ A2 N2) as (q1 & q6 & N1 & N6 & Q2).
  destruct (add_num_inv _ _ _ _ A1 N1) as (qa & q0 & Na & N0 & Q1).
  destruct (add_num p0 p6 q0 q6 N0 N6) as (t1 & r1 & B1 & M1 & R1).
  destruct (add_num t1 p11 r1 q11 M1 N11) as (t2 & r2 & B2 & M2 & R2).
  destruct (add_num t2 po r2 qo M2 No) as (t3 & r3 & B3 & M3 & R3).
  exists a, qa, t3, r3, po.
  repeat (split; [assumption |]).
  split.
  - unfold post_edited_day. rewrite G0, G6, G11, Go. cbn [bind].
    rewrite B1. cbn [bind]. rewrite B2. cbn [bind]. exact B3.
  - split; [exact M3 | split; [exact Go |]]. lra.
Qed.

Section Extractor.

Variable Timestamp : Type.
Variable to_datetime : string -> E Timestamp.

(** What an appended record holds. *)
Lemma day_entry_inv (row : Loader.Row) (date_str : string) (stats : json)
    (tr : TemporalRecord Timestamp) :
  day_entry to_datetime row date_str stats = inr (Some tr) ->
  exists date_obj total q qa qpe,
    to_datetime date_str = inr date_obj
    /\ total_day stats = inr total
    /\ num total = Some q /\ (0 < q)%Q /\ (q == qa + qpe)%Q
    /\ total_strings tr = total
    /\ approval_rate tr = (qa / q * 100)%Q
    /\ intervention_rate tr = (qpe / q * 100)%Q.
Proof.
  unfold day_entry. intros H.
  destruct (to_datetime date_str) as [? | date_obj];
    [discriminate |]; cbn [bind] in H.
  destruct (total_day stats) as [? | total] eqn:Et;
    [discriminate |]; cbn [bind] in H.
  destruct (gt0 total) as [? | positive] eqn:Eg;
    [discriminate |]; cbn [bind] in H.
  destruct positive; [| discriminate].
  apply gt0_true_iff in Eg. destruct Eg as (q & Nq & Hq).
  destruct (total_day_parts stats total q Et Nq)
    as (a & qa & pe & qpe & po & Ga & Na & Gpe & Npe & Go & Hsum).
  rewrite Ga, Gpe, Go in H. cbn [bind] in H.
  rewrite (truediv_positive a total qa q Na Nq Hq) in H. cbn [bind] in H.
  rewrite (truediv_positive pe total qpe q Npe Nq Hq) in H. cbn [bind] in H.
  injection H as <-.
  exists date_obj, total, q, qa, qpe. cbn.
  repeat split; try reflexivity; assumption.
Qed.

(** A usable entry yields a record. *)
Lemma day_entry_usable (row : Loader.Row) (date_str : string) (stats : json) :
  usable to_datetime date_str stats ->
  exists tr, day_entry to_datetime row date_str stats = inr (Some tr).
Proof.
  intros ((date_obj & Ed) & (total & q & Et & Nq & Hq)).
  unfold day_entry. rewrite Ed, Et. cbn [bind].
  rewrite (proj2 (gt0_true_iff total)) by (exists q; now split).
  cbn [bind].
  destruct (total_day_parts stats total q Et Nq)
    as (a & qa & pe & qpe & po & Ga & Na & Gpe & Npe & Go & Hsum).
  rewrite Ga, Gpe, Go. cbn [bind].
  rewrite (truediv_positive a total qa q Na Nq Hq). cbn [bind].
  rewrite (truediv_positive pe total qpe q Npe Nq Hq). cbn [bind].
  eexists. reflexivity.
Qed.

Lemma day_entry_record_usable (row : Loader.Row) (date_str : string)
    (stats : json) (tr : TemporalRecord Timestamp) :
  day_entry to_datetime row date_str stats = inr (Some tr) ->
  usable to_datetime date_str stats.
Proof.
  intros H. apply day_entry_inv in H.
  destruct H as (date_obj & total & q & qa & qpe & Ed & Et & Nq & Hq & _).
  split; [now exists date_obj | now exists total, q].
Qed.

(** Every entry is either usable, and contributes one record, or not
    usable, and contributes none. *)
Lemma emitted_cases (row : Loader.Row) (entry : string * json) :
  (usable to_datetime (fst entry) (snd entry)
   /\ exists tr, emitted to_datetime row entry = [tr])
  \/ (~ usable to_datetime (fst entry) (snd entry)
      /\ emitted to_datetime row entry = []).
Proof.
  unfold emitted.
  destruct (day_entry to_datetime row (fst entry) (snd entry))
    as [e | [tr |]] eqn:Ed.
  - right. split; [| reflexivity]. intros Hu.
    destruct (day_entry_usable row _ _ Hu) as [tr Ht]. congruence.
  - left. split; [| now exists tr].
    exact (day_entry_record_usable row _ _ tr Ed).
  - right. split; [| reflexivity]. intros Hu.
    destruct (day_entry_usable row _ _ Hu) as [tr Ht]. congruence.
Qed.

Lemma day_loop_emitted (row : Loader.Row) (entries : list (string * json)) :
  forall temporal_records,
    day_loop to_datetime row entries temporal_records
    = (temporal_records ++ flat_map (emitted to_datetime row) entries)%list.
Proof.
  induction entries as [| [date_str stats] rest IH]; intros acc; simpl.
  - now rewrite app_nil_r.
  - unfold emitted at 1. cbn [fst snd].
    destruct (day_entry to_datetime row date_str stats) as [e | [tr |]];
      rewrite IH; [reflexivity | | reflexivity].
    now rewrite <- app_assoc.
Qed.

Lemma row_loop_records (df : list Loader.Row) :
  forall temporal_records,
    row_loop to_datetime df temporal_records
    = (temporal_records ++ flat_map (row_records to_datetime) df)%list.
Proof.
  induction df as [| row rest IH]; intros acc; simpl.
  - now rewrite app_nil_r.
  - unfold row_records at 1.
    destruct (truthy _ && is_dict _).
    + rewrite IH, day_loop_emitted, <- app_assoc. reflexivity.
    + rewrite IH. reflexivity.
Qed.

Lemma create_temporal_data_records (df : list Loader.Row) :
  create_temporal_data to_datetime df = flat_map (row_records to_datetime) df.
Proof. unfold create_temporal_data. now rewrite row_loop_records. Qed.

(** Every record of the table was appended for some entry of some row. *)
Lemma create_temporal_data_origin (df : list Loader.Row)
    (tr : TemporalRecord Timestamp) :
  In tr (create_temporal_data to_datetime df) ->
  exists row date_str stats,
    In row df
    /\ In (date_str, stats)
          (dict_items (Loader.temporal_data (Loader.flat row)))
    /\ day_entry to_datetime row date_str stats = inr (Some tr).
Proof.
  rewrite create_temporal_data_records. intros H.
  apply in_flat_map in H. destruct H as (row & Hrow & H).
  unfold row_records in H.
  destruct (truthy _ && is_dict _); [| contradiction].
  apply in_flat_map in H. destruct H as ([date_str stats] & Hentry & H).
  exists row, date_str, stats. split; [exact Hrow | split; [exact Hentry |]].
  unfold emitted in H. cbn [fst snd] in H.
  destruct (day_entry to_datetime row date_str stats) as [e | [tr' |]];
    try contradiction.
  destruct H as [-> | []]. reflexivity.
Qed.

End Extractor.

End TemporalFacts.

Example create_temporal_data_sample :
  Temporal.create_temporal_data Sample.to_datetime [Sample.row]
  = [Sample.day_record].
Proof. reflexivity. Qed.


(** C10. On every record of the table returned by the extractor,
    [approval_rate] plus [intervention_rate] is 100. *)
Theorem C10_day_rates_add_to_100 :
  forall (Timestamp : Type) (to_datetime : string -> E Timestamp)
         (df : list Loader.Row) (tr : Temporal.TemporalRecord Timestamp),
    In tr (Temporal.create_temporal_data to_datetime df) ->
    (Temporal.approval_rate tr + Temporal.intervention_rate tr == 100)%Q.
Proof.
  intros Timestamp to_datetime df tr Hin.
  apply TemporalFacts.create_temporal_data_origin in Hin.
  destruct Hin as (row & date_str & stats & _ & _ & Hd).
  apply TemporalFacts.day_entry_inv in Hd.
  destruct Hd as (date_obj & total & q & qa & qpe
                  & _ & _ & _ & Hq & Hsum & _ & -> & ->).
  now apply PyFacts.shares_add_to_100.
Qed.

(** C7. Without usable data both operations return an empty result:
    the loader, given no file, or given files from which no record is
    collected, returns [None] after an [st.error] message; the extractor,
    given a frame none of whose temporal entries is usable, returns the
    empty table. *)
Theorem C7_no_data_gives_empty_result :
  Loader.load_crowdin_data []
  = (Loader.ReturnNone,
     [Loader.st_error "No JSON files found in the current directory!"])
  /\ (forall json_files : list Loader.file,
        fst (Loader.load_loop json_files [] []) = [] ->
        exists warnings text,
          Loader.load_crowdin_data json_files
          = (Loader.ReturnNone, (warnings ++ [Loader.st_error text])%list))
  /\ (forall (Timestamp : Type) (to_datetime : string -> E Timestamp)
             (df : list Loader.Row),
        (forall row date_str stats,
           In row df ->
           In (date_str, stats)
              (Temporal.dict_items (Loader.temporal_data (Loader.flat row))) ->
           ~ Temporal.usable to_datetime date_str stats) ->
        Temporal.create_temporal_data to_datetime df = []).
Proof.
  split; [reflexivity |].
  split; [exact LoaderFacts.load_crowdin_data_no_records |].
  intros Timestamp to_datetime df Hnone.
  destruct (Temporal.create_temporal_data to_datetime df) as [| tr rest] eqn:E;
    [reflexivity | exfalso].
  assert (Hin : In tr (Temporal.create_temporal_data to_datetime df))
    by (rewrite E; now left).
  apply TemporalFacts.create_temporal_data_origin in Hin.
  destruct Hin as (row & date_str & stats & Hrow & Hentry & Hd).
  apply (Hnone row date_str stats Hrow Hentry).
  exact (TemporalFacts.day_entry_record_usable _ _ _ _ _ _ Hd).
Qed.

(* ===================================================================== *)
(** * The theorems at concrete inputs *)
(* ===================================================================== *)




Lemma C2_risk_score_unguarded_witness :
  (exists cer r : Q,
     Metrics.critical_edit_rate Sample.worked = Fin cer
     /\ Metrics.risk_score Sample.worked = Fin r
     /\ (r == 3 * cer + 2 * (100 * (inject_Z 3 / inject_Z 100))
              + 1 * (100 * (inject_Z 5 / inject_Z 100)))%Q)
  /\ FVal.is_finite (Metrics.risk_score (Metrics.mkCounts 0 0 0 0 0)) = false
  /\ Metrics.risk_score (Metrics.mkCounts 0 0 0 0 0) = NaN.
Proof.
  split; [| split].
  - refine (proj1 (C2_risk_score_unguarded Sample.worked) _). discriminate.
  - refine (proj2 (proj2 (proj2 (proj2 (proj2 (proj2
              (proj1 (proj2 (C2_risk_score_unguarded
                               (Metrics.mkCounts 0 0 0 0 0))) _))))))).
    reflexivity.
  - refine (proj2 (proj2 (C2_risk_score_unguarded
                            (Metrics.mkCounts 0 0 0 0 0))) _ _).
    + reflexivity.
    + unfold Metrics.nonneg; simpl; lia.
Defined.

Lemma C10_day_rates_add_to_100_witness :
  In Sample.day_record
     (Temporal.create_temporal_data Sample.to_datetime [Sample.row])
  /\ (Temporal.approval_rate Sample.day_record
      + Temporal.intervention_rate Sample.day_record == 100)%Q.
Proof.
  assert (H : In Sample.day_record
                (Temporal.create_temporal_data Sample.to_datetime [Sample.row]))
    by (left; reflexivity).
  split; [exact H |].
  exact (C10_day_rates_add_to_100 _ _ _ _ H).
Defined.

Lemma C7_no_data_gives_empty_result_witness :
  fst (Loader.load_loop [("broken.json", inl JSONDecodeError)] [] []) = []
  /\ (exists warnings text,
        Loader.load_crowdin_data [("broken.json", inl JSONDecodeError)]
        = (Loader.ReturnNone, (warnings ++ [Loader.st_error text])%list))
  /\ Temporal.create_temporal_data Sample.to_datetime [Sample.row_unusable]
     = [].
Proof.
  assert (H : fst (Loader.load_loop [("broken.json", inl JSONDecodeError)]
                     [] []) = []) by reflexivity.
  split; [exact H | split].
  - exact (proj1 (proj2 C7_no_data_gives_empty_result) _ H).
  - apply (proj2 (proj2 C7_no_data_gives_empty_result)).
    intros row date_str stats [<- | []] Hentry
      [[date_obj Hd] (total & q & Ht & Hq & Hpos)].
    simpl in Hentry. destruct Hentry as [E | [E | []]];
      injection E as <- <-.
    + discriminate Hd.
    + vm_compute in Ht. injection Ht as <-.
      vm_compute in Hq. injection Hq as <-.
      vm_compute in Hpos. discriminate Hpos.
Defined.


(* ===================================================================== *)
(** * The loader, file by file and entry by entry *)
(* ===================================================================== *)

Module LoaderSteps.

Import Loader.

Lemma appends_only_retL {A} (a : A) : appends_only (retL a).
Proof. intros acc. unfold retL. simpl. now rewrite app_nil_r. Qed.

Lemma appends_only_lift {A} (m : E A) : appends_only (lift m).
Proof. intros acc. unfold lift. simpl. now rewrite app_nil_r. Qed.

Lemma appends_only_append (r : FlatRecord) : appends_only (append r).
Proof. intros acc. reflexivity. Qed.

Lemma appends_only_bindL {A B} (m : L A) (k : A -> L B) :
  appends_only m -> (forall a, appends_only (k a)) ->
  appends_only (bindL m k).
Proof.
  intros Hm Hk acc. unfold bindL. rewrite (Hm acc).
  destruct (m []) as [out [e | a]]; cbn [fst snd].
  - reflexivity.
  - rewrite (Hk a (acc ++ out)%list), (Hk a out).
    cbn [fst snd]. now rewrite app_assoc.
Qed.

Lemma appends_only_for_each {A} (xs : list A) (body : A -> L unit) :
  (forall x, appends_only (body x)) -> appends_only (for_each xs body).
Proof.
  intros Hb. induction xs as [| x rest IH]; cbn [for_each].
  - apply appends_only_retL.
  - apply appends_only_bindL; [apply Hb | intros _; exact IH].
Qed.

Lemma appends_only_method_block (key : string) (m : Method)
    (pn ln lc dr lang_data : json) :
  appends_only (method_block key m pn ln lc dr lang_data).
Proof.
  unfold method_block.
  repeat (apply appends_only_bindL; [apply appends_only_lift | intros ?]).
  destruct a2.
  - apply appends_only_bindL; [apply appends_only_lift | intros r].
    apply appends_only_append.
  - apply appends_only_retL.
Qed.

Lemma appends_only_language_block (pn dr lang_data : json) :
  appends_only (language_block pn dr lang_data).
Proof.
  unfold language_block.
  repeat (apply appends_only_bindL; [apply appends_only_lift | intros ?]).
  repeat (apply appends_only_bindL;
          [apply appends_only_method_block | intros ?]).
  apply appends_only_method_block.
Qed.

Lemma appends_only_try_file (file_path : string) (content : E json) :
  appends_only (try_file file_path content).
Proof.
  unfold try_file.
  repeat (apply appends_only_bindL; [apply appends_only_lift | intros ?]).
  apply appends_only_for_each. intros x. apply appends_only_language_block.
Qed.

(** The loop over the files, started from any state. *)
Lemma load_loop_state (json_files : list file) :
  forall all_data log,
    load_loop json_files all_data log
    = ((all_data ++ fst (load_loop json_files [] []))%list,
       (log ++ snd (load_loop json_files [] []))%list).
Proof.
  induction json_files as [| [file_path content] rest IH];
    intros all_data log; cbn [load_loop].
  - cbn [fst snd]. now rewrite !app_nil_r.
  - rewrite (appends_only_try_file file_path content all_data).
    destruct (try_file file_path content []) as [out [e | u]]; cbn [fst snd].
    + rewrite (IH (all_data ++ out)%list (log ++ _)%list).
      rewrite (IH out ([] ++ _)%list).
      cbn [fst snd app]. now rewrite <- !app_assoc.
    + rewrite (IH (all_data ++ out)%list log).
      rewrite (IH out []).
      cbn [fst snd app]. now rewrite <- !app_assoc.
Qed.

Lemma load_loop_app (xs ys : list file) :
  forall all_data log,
    load_loop (xs ++ ys) all_data log
    = load_loop ys (fst (load_loop xs all_data log))
                   (snd (load_loop xs all_data log)).
Proof.
  induction xs as [| [file_path content] rest IH]; intros all_data log.
  - reflexivity.
  - cbn [app load_loop].
    destruct (try_file file_path content all_data) as [all_data' [e | u]];
      apply IH.
Qed.

End LoaderSteps.

(** X1. The records and the warnings of a batch of files are those of
    its parts, one after the other: what a file contributes does not
    depend on the files read before it. *)
Theorem X1_batches_concatenate :
  forall xs ys : list Loader.file,
    Loader.load_loop (xs ++ ys) [] []
    = ((fst (Loader.load_loop xs [] []) ++ fst (Loader.load_loop ys [] []))%list,
       (snd (Loader.load_loop xs [] []) ++ snd (Loader.load_loop ys [] []))%list).
Proof.
  intros xs ys. rewrite LoaderSteps.load_loop_app.
  apply LoaderSteps.load_loop_state.
Qed.

Module LoaderEntries.

Import Loader.

Lemma language_block_not_dict (pn dr x : json) (all_data : list FlatRecord) :
  is_dict x = false ->
  language_block pn dr x all_data = (all_data, inl AttributeError).
Proof. intros Hx. destruct x; try discriminate Hx; reflexivity. Qed.

(** What a record built by [flat_record] holds besides the counts. *)
Lemma flat_record_fields (m : Method) (pn ln lc cumulative temporal dr : json)
    (r : FlatRecord) :
  flat_record m pn ln lc cumulative temporal dr = inr r ->
  project r = pn /\ language r = ln /\ language_code r = lc
  /\ method r = m /\ temporal_data r = temporal.
Proof.
  unfold flat_record. intros H.
  repeat match type of H with
         | bind ?c _ = inr _ =>
             destruct c; [discriminate H | cbn [bind] in H]
         end.
  injection H as <-. repeat split.
Qed.

(** A method block appends at most one record, built by [flat_record]. *)
Lemma method_block_cases (key : string) (m : Method)
    (pn ln lc dr lang_data : json) (all_data : list FlatRecord) :
  fst (method_block key m pn ln lc dr lang_data all_data) = all_data
  \/ exists cumulative temporal r,
       flat_record m pn ln lc cumulative temporal dr = inr r
       /\ method_block key m pn ln lc dr lang_data all_data
          = ((all_data ++ [r])%list, inr tt).
Proof.
  unfold method_block, bindL, lift, append, retL.
  destruct (get lang_data key (JDict [])) as [e | m_data]; [now left |].
  destruct (get m_data "cumulativeStatistics" (JDict [])) as [e | cumulative];
    [now left |].
  destruct (get m_data "temporalStatistics" (JDict [])) as [e | temporal];
    [now left |].
  destruct (has_data cumulative) as [e | [|]]; [now left | | now left].
  destruct (flat_record m pn ln lc cumulative temporal dr) as [e | r] eqn:Er;
    [now left |].
  right. now exists cumulative, temporal, r.
Qed.

Lemma method_block_length (key : string) (m : Method)
    (pn ln lc dr lang_data : json) (all_data : list FlatRecord) :
  (List.length (fst (method_block key m pn ln lc dr lang_data all_data))
   <= List.length all_data + 1)%nat.
Proof.
  destruct (method_block_cases key m pn ln lc dr lang_data all_data)
    as [-> | (c & t & r & _ & ->)].
  - lia.
  - cbn [fst]. rewrite length_app. simpl. lia.
Qed.

Lemma method_block_project (key : string) (m : Method)
    (pn ln lc dr lang_data : json) (all_data : list FlatRecord) :
  Forall (fun r => project r = pn) all_data ->
  Forall (fun r => project r = pn)
         (fst (method_block key m pn ln lc dr lang_data all_data)).
Proof.
  intros Hall.
  destruct (method_block_cases key m pn ln lc dr lang_data all_data)
    as [-> | (c & t & r & Hr & ->)]; [exact Hall |].
  cbn [fst]. apply Forall_app. split; [exact Hall |].
  constructor; [| constructor].
  now destruct (flat_record_fields _ _ _ _ _ _ _ _ Hr) as [-> _].
Qed.

Lemma language_block_length (pn dr x : json) (all_data : list FlatRecord) :
  (List.length (fst (language_block pn dr x all_data))
   <= List.length all_data + 3)%nat.
Proof.
  unfold language_block, bindL, lift.
  destruct (get x "language" (JDict [])) as [e | language]; [simpl; lia |].
  destruct (get language "name" (JStr "Unknown")) as [e | ln]; [simpl; lia |].
  destruct (get language "code" (JStr "unknown")) as [e | lc]; [simpl; lia |].
  pose proof (method_block_length "ai" AI pn ln lc dr x all_data) as H1.
  destruct (method_block "ai" AI pn ln lc dr x all_data) as [s1 [e | u1]];
    cbn [fst] in *; [lia |].
  pose proof (method_block_length "mt" MT pn ln lc dr x s1) as H2.
  destruct (method_block "mt" MT pn ln lc dr x s1) as [s2 [e | u2]];
    cbn [fst] in *; [lia |].
  pose proof (method_block_length "tm" TM pn ln lc dr x s2) as H3. lia.
Qed.

Lemma language_block_project (pn dr x : json) (all_data : list FlatRecord) :
  Forall (fun r => project r = pn) all_data ->
  Forall (fun r => project r = pn) (fst (language_block pn dr x all_data)).
Proof.
  intros Hall. unfold language_block, bindL, lift.
  destruct (get x "language" (JDict [])) as [e | language]; [exact Hall |].
  destruct (get language "name" (JStr "Unknown")) as [e | ln]; [exact Hall |].
  destruct (get language "code" (JStr "unknown")) as [e | lc]; [exact Hall |].
  pose proof (method_block_project "ai" AI pn ln lc dr x all_data Hall) as H1.
  destruct (method_block "ai" AI pn ln lc dr x all_data) as [s1 [e | u1]];
    cbn [fst] in *; [exact H1 |].
  pose proof (method_block_project "mt" MT pn ln lc dr x s1 H1) as H2.
  destruct (method_block "mt" MT pn ln lc dr x s1) as [s2 [e | u2]];
    cbn [fst] in *; [exact H2 |].
  exact (method_block_project "tm" TM pn ln lc dr x s2 H2).
Qed.

Lemma for_each_length (pn dr : json) (xs : list json) :
  forall all_data,
    (List.length (fst (for_each xs (language_block pn dr) all_data))
     <= List.length all_data + 3 * List.length xs)%nat.
Proof.
  induction xs as [| x rest IH]; intros all_data; cbn [for_each].
  - simpl. lia.
  - unfold bindL.
    pose proof (language_block_length pn dr x all_data) as H1.
    destruct (language_block pn dr x all_data) as [s [e | u]];
      cbn [fst] in *.
    + simpl. lia.
    + specialize (IH s). simpl List.length. lia.
Qed.

Lemma for_each_project (pn dr : json) (xs : list json) :
  forall all_data,
    Forall (fun r => project r = pn) all_data ->
    Forall (fun r => project r = pn)
           (fst (for_each xs (language_block pn dr) all_data)).
Proof.
  induction xs as [| x rest IH]; intros all_data Hall; cbn [for_each].
  - exact Hall.
  - unfold bindL.
    pose proof (language_block_project pn dr x all_data Hall) as H1.
    destruct (language_block pn dr x all_data) as [s [e | u]];
      cbn [fst] in *; [exact H1 | now apply IH].
Qed.

End LoaderEntries.

(** X2. A language entry that is not a JSON object ends the reading of
    its file with an AttributeError: the records of the entries before
    it stay in [all_data], and the entries after it are not read. *)
Theorem X2_bad_entry_ends_the_file :
  forall (pn dr : json) (xs ys : list json) (x : json)
         (all_data : list Loader.FlatRecord),
    is_dict x = false ->
    Loader.for_each (xs ++ x :: ys) (Loader.language_block pn dr) all_data
    = match Loader.for_each xs (Loader.language_block pn dr) all_data with
      | (all_data', inr _) => (all_data', inl AttributeError)
      | (all_data', inl e) => (all_data', inl e)
      end.
Proof.
  intros pn dr xs ys x all_data Hx. revert all_data.
  induction xs as [| a rest IH]; intros all_data.
  - cbn [app Loader.for_each]. unfold Loader.bindL, Loader.retL.
    now rewrite LoaderEntries.language_block_not_dict.
  - cbn [app Loader.for_each]. unfold Loader.bindL.
    destruct (Loader.language_block pn dr a all_data) as [s [e | u]];
      [reflexivity | apply IH].
Qed.

Lemma X2_bad_entry_ends_the_file_witness :
  is_dict (JStr "oops") = false
  /\ Loader.for_each
       ([JDict [("ai", JDict [("cumulativeStatistics",
                               Sample.method_stats 7 1 0 0 0 3)])]]
        ++ JStr "oops"
           :: [JDict [("mt", JDict [("cumulativeStatistics",
                                     Sample.method_stats 9 0 0 0 0 1)])]])
       (Loader.language_block (JStr "half") (JDict [])) []
     = ([Sample2.flat_half], inl AttributeError).
Proof.
  split; [reflexivity |].
  rewrite (X2_bad_entry_ends_the_file (JStr "half") (JDict []) _ _
             (JStr "oops") [] eq_refl).
  reflexivity.
Defined.

(** X3. A file yields at most three records for each entry of its "data"
    list. *)
Theorem X3_three_records_per_entry :
  forall (file_path : string) (kvs : list (string * json)) (xs : list json),
    lookup "data" kvs = Some (JList xs) ->
    (List.length (fst (Loader.try_file file_path (inr (JDict kvs)) []))
     <= 3 * List.length xs)%nat.
Proof.
  intros file_path kvs xs Hdata.
  unfold Loader.try_file, Loader.bindL, Loader.lift.
  cbn [get]. rewrite Hdata.
  destruct (lookup "name" kvs), (lookup "dateRange" kvs); cbn [ret iter];
    apply (LoaderEntries.for_each_length _ _ xs []).
Qed.

Lemma X3_three_records_per_entry_witness :
  lookup "data" Sample2.two_entries_kvs = Some (JList Sample2.two_entries)
  /\ (List.length
        (fst (Loader.try_file "demo.json"
                (inr (JDict Sample2.two_entries_kvs)) []))
      <= 3 * List.length Sample2.two_entries)%nat.
Proof.
  split; [reflexivity |].
  exact (X3_three_records_per_entry "demo.json" Sample2.two_entries_kvs
           Sample2.two_entries eq_refl).
Defined.

(** X4. Every record read from a file carries as its project the "name"
    of the document or, when the document has none, the file path with
    every ".json" removed. *)
Theorem X4_records_carry_the_project_name :
  forall (file_path : string) (data : json),
    Forall (fun r =>
              get data "name" (JStr (replace file_path ".json" ""))
              = inr (Loader.project r))
           (fst (Loader.try_file file_path (inr data) [])).
Proof.
  intros file_path data.
  unfold Loader.try_file, Loader.bindL, Loader.lift.
  destruct (get data "name" (JStr (replace file_path ".json" "")))
    as [e | pn]; [constructor |].
  destruct (get data "dateRange" (JDict [])) as [e | dr]; [constructor |].
  destruct (get data "data" (JList [])) as [e | langs]; [constructor |].
  destruct (iter langs) as [e | xs]; [constructor |].
  assert (H : Forall (fun r => Loader.project r = pn)
                (fst (Loader.for_each xs (Loader.language_block pn dr) [])))
    by (apply LoaderEntries.for_each_project; constructor).
  revert H. apply Forall_impl. intros r ->. reflexivity.
Qed.

Module LoaderFrame.

Import Loader.

Lemma derive_all_rows (all_data : list FlatRecord) :
  forall df,
    derive_all all_data = Some df ->
    map flat df = all_data /\ Forall from_loader df.
Proof.
  induction all_data as [| r rest IH]; intros df H; cbn [derive_all] in H.
  - injection H as <-. split; constructor.
  - destruct (counts_of r) as [c |] eqn:Ec; [| discriminate].
    destruct (derive_all rest) as [rows |]; [| discriminate].
    injection H as <-. destruct (IH rows eq_refl) as [Hmap Hall].
    split.
    + cbn [map derive flat]. now rewrite Hmap.
    + constructor; [| exact Hall]. exists c. now split.
Qed.

(** The loop logs warnings only, at most one for each file. *)
Lemma load_loop_warnings (json_files : list file) :
  forall all_data log,
    exists warnings,
      snd (load_loop json_files all_data log) = (log ++ warnings)%list
      /\ forallb is_warning warnings = true
      /\ (List.length warnings <= List.length json_files)%nat.
Proof.
  induction json_files as [| [file_path content] rest IH];
    intros all_data log; cbn [load_loop].
  - exists []. cbn. now rewrite app_nil_r.
  - destruct (try_file file_path content all_data) as [all_data' [e | u]].
    + destruct (IH all_data' (log ++ [st_warning file_path e])%list)
        as (ws & Hlog & Hw & Hlen).
      exists (st_warning file_path e :: ws).
      rewrite Hlog, <- app_assoc. cbn. repeat split; [exact Hw | lia].
    + destruct (IH all_data' log) as (ws & Hlog & Hw & Hlen).
      exists ws. cbn. repeat split; [exact Hlog | exact Hw | lia].
Qed.

End LoaderFrame.



(** X6. The log of a call holds one warning at most for each file and,
    after the warnings, one error message exactly when the call returns
    [None]. *)
Theorem X6_log_of_a_call :
  forall json_files : list Loader.file,
    exists warnings,
      forallb is_warning warnings = true
      /\ (List.length warnings <= List.length json_files)%nat
      /\ ((fst (Loader.load_crowdin_data json_files) = Loader.ReturnNone
           /\ exists text,
                snd (Loader.load_crowdin_data json_files)
                = (warnings ++ [Loader.st_error text])%list)
          \/ (fst (Loader.load_crowdin_data json_files) <> Loader.ReturnNone
              /\ snd (Loader.load_crowdin_data json_files) = warnings)).
Proof.
  intros json_files. unfold Loader.load_crowdin_data.
  destruct json_files as [| f rest].
  - exists []. cbn. repeat split; [lia |]. left. split; [reflexivity |].
    now exists "No JSON files found in the current directory!".
  - destruct (LoaderFrame.load_loop_warnings (f :: rest) [] [])
      as (ws & Hlog & Hw & Hlen).
    destruct (Loader.load_loop (f :: rest) [] []) as [all_data log].
    cbn [snd app] in Hlog. subst log.
    exists ws. split; [exact Hw | split; [exact Hlen |]].
    destruct all_data as [| r more].
    + left. split; [reflexivity |].
      now exists "No valid data found in JSON files!".
    + right. destruct (Loader.derive_all (r :: more)); cbn [fst snd];
        split; (discriminate || reflexivity).
Qed.


(** X8. For a block that is kept, building the record fails exactly when
    "postEdited" is present without being an object, or when "dateRange"
    is not an object; a "postEdited" that is absent reads as four zero
    counts, while one that is [null] raises. *)
Theorem X8_when_a_record_can_be_built :
  forall (m : Loader.Method) (pn ln lc temporal dr : json)
         (kvs : list (string * json)),
    ((exists r, Loader.flat_record m pn ln lc (JDict kvs) temporal dr = inr r)
     <-> (is_dict dr = true
          /\ match lookup "postEdited" kvs with
             | Some v => is_dict v = true
             | None => True
             end))
    /\ (lookup "postEdited" kvs = None ->
        forall r,
          Loader.flat_record m pn ln lc (JDict kvs) temporal dr = inr r ->
          Loader.post_edited_0_5 r = JInt 0
          /\ Loader.post_edited_6_10 r = JInt 0
          /\ Loader.post_edited_11_15 r = JInt 0
          /\ Loader.post_edited_other r = JInt 0)
    /\ (lookup "postEdited" kvs = Some JNull ->
        Loader.flat_record m pn ln lc (JDict kvs) temporal dr
        = inl AttributeError).
Proof.
  intros m pn ln lc temporal dr kvs.
  unfold Loader.flat_record. cbn [get].
  destruct (lookup "approvedWithoutEdit" kvs) as [a |];
    destruct (lookup "weightedUnits" kvs) as [w |];
    (destruct (lookup "postEdited" kvs) as [pe |];
     [ destruct pe as [| b | z | q | s | l | pkvs]
     | ]);
    cbn [ret bind raise get is_dict];
    try (split; [split; [intros [r H]; discriminate H
                        | intros [_ H]; discriminate H]
                | split; [discriminate | try reflexivity; discriminate]]);
    try (destruct (lookup "0-5" pkvs), (lookup "6-10" pkvs),
                  (lookup "11-15" pkvs), (lookup "other" pkvs));
    cbn [ret bind];
    (destruct dr as [| b | z | q | s | l | dkvs];
     cbn [ret bind raise get is_dict];
     [ split; [split; [intros [r H]; discriminate H
                      | intros [H _]; discriminate H]
              | split; [intros _ r H; discriminate H | discriminate]] ..
     | destruct (lookup "from" dkvs), (lookup "to" dkvs); cbn [ret bind];
       (split; [split; [intros _; now split | intros _; eexists; reflexivity]
               | split; [try discriminate;
                         intros _ r H; injection H as <-; now repeat split
                        | discriminate]]) ]).
Qed.

Lemma X8_when_a_record_can_be_built_witness :
  (exists r,
     Loader.flat_record Loader.MT (JStr "p") (JStr "l") (JStr "c")
       (JDict [("approvedWithoutEdit", JInt 3)]) (JDict []) (JDict [])
     = inr r
     /\ Loader.post_edited_other r = JInt 0)
  /\ Loader.flat_record Loader.MT (JStr "p") (JStr "l") (JStr "c")
       (JDict [("approvedWithoutEdit", JInt 3); ("postEdited", JNull)])
       (JDict []) (JDict [])
     = inl AttributeError.
Proof.
  split.
  - destruct (X8_when_a_record_can_be_built Loader.MT (JStr "p") (JStr "l")
                (JStr "c") (JDict []) (JDict [])
                [("approvedWithoutEdit", JInt 3)]) as (Hiff & Hzero & _).
    destruct (proj2 Hiff (conj eq_refl I)) as [r Hr].
    exists r. split; [exact Hr |].
    exact (proj2 (proj2 (proj2 (Hzero eq_refl r Hr)))).
  - exact (proj2 (proj2 (X8_when_a_record_can_be_built Loader.MT (JStr "p")
                           (JStr "l") (JStr "c") (JDict []) (JDict [])
                           [("approvedWithoutEdit", JInt 3);
                            ("postEdited", JNull)])) eq_refl).
Defined.

(** X9. For a file named after a stem without a dot, the default project
    name is the stem: removing ".json" from "<stem>.json" gives back the
    stem. *)
Theorem X9_default_project_name :
  forall stem : string,
    dotless stem ->
    replace (stem ++ ".json") ".json" "" = stem.
Proof.
  unfold replace.
  induction stem as [| c rest IH]; intros Hd.
  - reflexivity.
  - cbn [String.append replace_from String.prefix].
    destruct (ascii_dec "." c) as [E | N].
    + exfalso. apply (Hd c); [left; reflexivity | now symmetry].
    + f_equal. apply IH. intros c' Hin. apply Hd. right. exact Hin.
Qed.

Lemma X9_default_project_name_witness :
  dotless "crowdin-report_fr" /\ replace "crowdin-report_fr.json" ".json" ""
                                 = "crowdin-report_fr".
Proof.
  assert (H : dotless "crowdin-report_fr").
  { intros c Hin E. subst c. vm_compute in Hin.
    repeat (destruct Hin as [Hin | Hin]; [discriminate Hin |]).
    exact Hin. }
  split; [exact H |].
  exact (X9_default_project_name "crowdin-report_fr" H).
Defined.

Module MetricsMore.

Import FVal Metrics.

Lemma nonzero_of_positive (t : Z) : 0 < t -> ~ (inject_Z t == 0)%Q.
Proof.
  intros Ht H. pose proof (FValFacts.inject_Z_pos t Ht) as Hq.
  rewrite H in Hq. now apply Qlt_irrefl in Hq.
Qed.

Lemma rate_positive (a : Z) (c : Counts) :
  0 < total_strings c ->
  np_where (total_strings c >? 0)
    (mul (div a (total_strings c)) (of_Z 100)) (of_Z 0)
  = Fin (inject_Z a / inject_Z (total_strings c) * 100).
Proof.
  intros Ht. rewrite guard_positive by exact Ht. unfold np_where.
  rewrite FValFacts.div_nonzero by lia. reflexivity.
Qed.

Lemma risk_score_positive (c : Counts) :
  0 < total_strings c ->
  risk_score c
  = Fin (inject_Z (post_edited_other c) / inject_Z (total_strings c)
           * 100 * 3
         + inject_Z (post_edited_11_15 c) / inject_Z (total_strings c)
           * 100 * 2
         + inject_Z (post_edited_6_10 c) / inject_Z (total_strings c)
           * 100 * 1).
Proof.
  intros Ht. unfold risk_score, critical_edit_rate.
  rewrite rate_positive by exact Ht.
  rewrite !FValFacts.div_nonzero by lia. reflexivity.
Qed.

End MetricsMore.







(* ===================================================================== *)
(** * The dashboard: what is computed from the frame *)
(* ===================================================================== *)

Module FrameFacts.

Import Loader.

Lemma approval_rate_finite (c : Metrics.Counts) :
  exists q, Metrics.approval_rate c = Fin q.
Proof.
  unfold Metrics.approval_rate, FVal.np_where.
  destruct (Z.gtb_spec (Metrics.total_strings c) 0) as [Ht | Ht].
  - rewrite FValFacts.div_nonzero by lia. eexists. reflexivity.
  - eexists. reflexivity.
Qed.

Lemma from_loader_total (row : Row) :
  from_loader row ->
  exists c, counts_of (flat row) = Some c
            /\ total_strings row = Metrics.total_strings c
            /\ total_post_edited row = Metrics.total_post_edited c
            /\ approval_rate row = Metrics.approval_rate c
            /\ human_intervention_rate row = Metrics.human_intervention_rate c
            /\ critical_edit_rate row = Metrics.critical_edit_rate c
            /\ risk_score row = Metrics.risk_score c.
Proof.
  intros (c & Hc & Hrow). exists c. split; [exact Hc |].
  rewrite Hrow. repeat split.
Qed.

Lemma Qle_bool_false (a b : Q) : Qle_bool a b = false -> (b < a)%Q.
Proof.
  intros H. apply Qnot_le_lt. intros Hle.
  apply Qle_bool_iff in Hle. congruence.
Qed.

End FrameFacts.

(** X13. The frame that feeds the tabs holds only rows of the loaded
    frame with a positive [total_strings]; on each of them [risk_score]
    is a finite number, so the rows on which it is NaN never reach the
    tabs. *)
Theorem X13_filtered_rows_have_data :
  forall (in_projects in_languages : json -> bool)
         (in_methods : Loader.Method -> bool) (df : list Loader.Row),
    Forall from_loader df ->
    Forall (fun row =>
              In row df
              /\ 0 < Loader.total_strings row
              /\ FVal.is_finite (Loader.risk_score row) = true)
           (Dashboard.filtered_df in_projects in_languages in_methods df).
Proof.
  intros in_projects in_languages in_methods df Hall.
  apply Forall_forall. intros row Hin.
  unfold Dashboard.filtered_df in Hin. apply filter_In in Hin.
  destruct Hin as [Hin Hsel]. unfold Dashboard.selected in Hsel.
  apply andb_true_iff in Hsel. destruct Hsel as [_ Hpos].
  apply Z.gtb_lt in Hpos.
  split; [exact Hin | split; [lia |]].
  rewrite Forall_forall in Hall.
  destruct (FrameFacts.from_loader_total row (Hall row Hin))
    as (c & _ & Ht & _ & _ & _ & _ & Hr).
  rewrite Hr, MetricsMore.risk_score_positive by lia. reflexivity.
Qed.

Lemma X13_filtered_rows_have_data_witness :
  Forall from_loader
    [Sample.row;
     Loader.derive (Sample.flat_ai (JDict []) 0 0 0 0 0 0)
                   (Metrics.mkCounts 0 0 0 0 0)]
  /\ Dashboard.filtered_df (fun _ => true) (fun _ => true) (fun _ => true)
       [Sample.row;
        Loader.derive (Sample.flat_ai (JDict []) 0 0 0 0 0 0)
                      (Metrics.mkCounts 0 0 0 0 0)]
     = [Sample.row]
  /\ FVal.is_finite (Loader.risk_score Sample.row) = true.
Proof.
  assert (H : Forall from_loader
                [Sample.row;
                 Loader.derive (Sample.flat_ai (JDict []) 0 0 0 0 0 0)
                               (Metrics.mkCounts 0 0 0 0 0)]).
  { constructor; [| constructor; [| constructor]].
    - exists Sample.worked. split; reflexivity.
    - exists (Metrics.mkCounts 0 0 0 0 0). split; reflexivity. }
  split; [exact H | split; [reflexivity |]].
  pose proof (X13_filtered_rows_have_data (fun _ => true) (fun _ => true)
                (fun _ => true) _ H) as HF.
  change (Dashboard.filtered_df _ _ _ _) with [Sample.row] in HF.
  apply Forall_inv in HF. exact (proj2 (proj2 HF)).
Defined.

Module ShareFacts.

Import Dashboard.

Lemma share_empty (k : nat) : share k 0 = inl ZeroDivisionError.
Proof. reflexivity. Qed.

Lemma share_value (k n : nat) :
  n <> 0%nat ->
  share k n
  = inr (inject_Z (Z.of_nat k) / inject_Z (Z.of_nat n) * 100)%Q.
Proof.
  intros Hn. unfold share.
  destruct (Nat.eqb_spec n 0) as [E | _]; [contradiction | reflexivity].
Qed.

Lemma share_range (k n : nat) :
  n <> 0%nat -> (k <= n)%nat ->
  (0 <= inject_Z (Z.of_nat k) / inject_Z (Z.of_nat n) * 100
   /\ inject_Z (Z.of_nat k) / inject_Z (Z.of_nat n) * 100 <= 100)%Q.
Proof.
  intros Hn Hk.
  destruct (FValFacts.quotient_between 0 1 (Z.of_nat k) (Z.of_nat n))
    as [H0 H1]; try lia.
  change (inject_Z 0) with 0%Q in H0. change (inject_Z 1) with 1%Q in H1.
  split; lra.
Qed.

Lemma count_rows_le (mask : Loader.Row -> bool) (df : list Loader.Row) :
  (count_rows mask df <= List.length df)%nat.
Proof. unfold count_rows. apply filter_length_le. Qed.

(** The four masks of the benchmarks: a finite rate satisfies one of
    them and no other. *)
Lemma one_benchmark (q : Q) :
  let b1 := Column.gtb (Fin q) 90 in
  let b2 := Column.geb (Fin q) 70 && Column.leb (Fin q) 90 in
  let b3 := Column.geb (Fin q) 50 && Column.ltb (Fin q) 70 in
  let b4 := Column.ltb (Fin q) 50 in
  ((if b1 then 1 else 0) + (if b2 then 1 else 0)
   + (if b3 then 1 else 0) + (if b4 then 1 else 0) = 1)%nat.
Proof.
  cbn [Column.gtb Column.geb Column.leb Column.ltb].
  destruct (Qle_bool q 90) eqn:E90, (Qle_bool 70 q) eqn:E70,
           (Qle_bool 50 q) eqn:E50; cbn; try reflexivity; exfalso;
    repeat match goal with
           | H : Qle_bool _ _ = true |- _ => apply Qle_bool_iff in H
           | H : Qle_bool _ _ = false |- _ =>
               apply FrameFacts.Qle_bool_false in H
           end; lra.
Qed.

Lemma benchmark_counts (df : list Loader.Row) :
  Forall from_loader df ->
  (count_rows (fun r => Column.gtb (Loader.approval_rate r) 90) df
   + count_rows (fun r => Column.geb (Loader.approval_rate r) 70
                          && Column.leb (Loader.approval_rate r) 90) df
   + count_rows (fun r => Column.geb (Loader.approval_rate r) 50
                          && Column.ltb (Loader.approval_rate r) 70) df
   + count_rows (fun r => Column.ltb (Loader.approval_rate r) 50) df
   = List.length df)%nat.
Proof.
  unfold count_rows.
  induction 1 as [| row rest Hrow _ IH]; [reflexivity |].
  destruct (FrameFacts.from_loader_total row Hrow)
    as (c & _ & _ & _ & Ha & _).
  destruct (FrameFacts.approval_rate_finite c) as [q Hq].
  cbn [filter]. rewrite Ha, Hq.
  pose proof (one_benchmark q) as H1. cbn zeta in H1.
  destruct (Column.gtb (Fin q) 90),
           (Column.geb (Fin q) 70 && Column.leb (Fin q) 90),
           (Column.geb (Fin q) 50 && Column.ltb (Fin q) 70),
           (Column.ltb (Fin q) 50);
    cbn [List.length] in *; lia.
Qed.

End ShareFacts.



(** X15. The share of rows with an approval rate under 50 and the share
    of rows with an intervention rate over 70 are percentages between 0
    and 100 on a non-empty frame; on an empty frame both divisions raise
    ZeroDivisionError. *)
Theorem X15_row_shares :
  (Dashboard.failure_rate [] = inl ZeroDivisionError
   /\ Dashboard.high_intervention [] = inl ZeroDivisionError)
  /\ forall df : list Loader.Row,
       df <> [] ->
       exists f h : Q,
         Dashboard.failure_rate df = inr f
         /\ Dashboard.high_intervention df = inr h
         /\ (0 <= f /\ f <= 100)%Q /\ (0 <= h /\ h <= 100)%Q.
Proof.
  split; [split; reflexivity |].
  intros df Hne.
  assert (Hn : List.length df <> 0%nat)
    by (destruct df; [contradiction | discriminate]).
  unfold Dashboard.failure_rate, Dashboard.high_intervention.
  rewrite !ShareFacts.share_value by exact Hn.
  do 2 eexists. split; [reflexivity | split; [reflexivity |]].
  split; apply ShareFacts.share_range;
    (exact Hn || apply ShareFacts.count_rows_le).
Qed.

Lemma X15_row_shares_witness :
  [Sample.row] <> []
  /\ exists f h : Q,
       Dashboard.failure_rate [Sample.row] = inr f
       /\ Dashboard.high_intervention [Sample.row] = inr h
       /\ (0 <= f /\ f <= 100)%Q /\ (0 <= h /\ h <= 100)%Q.
Proof.
  assert (Hne : [Sample.row] <> []) by discriminate.
  split; [exact Hne |].
  exact (proj2 X15_row_shares [Sample.row] Hne).
Defined.

Module ColumnFacts.

Import Column.

Lemma fold_add_shift (zs : list Z) :
  forall a, fold_left Z.add zs a = a + fold_left Z.add zs 0.
Proof.
  induction zs as [| z rest IH]; intros a; cbn [fold_left].
  - lia.
  - rewrite (IH (a + z)), (IH (0 + z)). lia.
Qed.

Lemma sum_Z_cons (z : Z) (zs : list Z) : sum_Z (z :: zs) = z + sum_Z zs.
Proof. unfold sum_Z. cbn [fold_left]. now rewrite fold_add_shift. Qed.

Lemma sum_Z_app (xs ys : list Z) : sum_Z (xs ++ ys) = sum_Z xs + sum_Z ys.
Proof.
  induction xs as [| x rest IH]; [reflexivity |].
  cbn [app]. rewrite !sum_Z_cons, IH. lia.
Qed.

Lemma int_cells_app (xs ys : list json) (a b : list Z) :
  int_cells xs = Some a -> int_cells ys = Some b ->
  int_cells (xs ++ ys) = Some (a ++ b)%list.
Proof.
  revert a. induction xs as [| x rest IH]; intros a Ha Hb.
  - injection Ha as <-. exact Hb.
  - cbn [app int_cells] in *.
    destruct (Loader.int_cell x) as [z |]; [| discriminate].
    destruct (int_cells rest) as [zs |]; [| discriminate].
    injection Ha as <-. now rewrite (IH zs eq_refl Hb).
Qed.

(** The count cells of a record from which counts can be read. *)
Lemma counts_of_cells (r : Loader.FlatRecord) (c : Metrics.Counts) :
  Loader.counts_of r = Some c ->
  Loader.approved_without_edit r = JInt (Metrics.approved_without_edit c)
  /\ Loader.post_edited_0_5 r = JInt (Metrics.post_edited_0_5 c)
  /\ Loader.post_edited_6_10 r = JInt (Metrics.post_edited_6_10 c)
  /\ Loader.post_edited_11_15 r = JInt (Metrics.post_edited_11_15 c)
  /\ Loader.post_edited_other r = JInt (Metrics.post_edited_other c).
Proof.
  unfold Loader.counts_of. intros H.
  destruct (Loader.approved_without_edit r); try discriminate H.
  destruct (Loader.post_edited_0_5 r); try discriminate H.
  destruct (Loader.post_edited_6_10 r); try discriminate H.
  destruct (Loader.post_edited_11_15 r); try discriminate H.
  destruct (Loader.post_edited_other r); try discriminate H.
  cbn in H. injection H as <-. repeat split.
Qed.

End ColumnFacts.

Module EditFacts.

Import Dashboard.

Lemma edit_data_loop_flat (df : list Loader.Row) :
  forall acc,
    edit_data_loop df acc = (acc ++ flat_map edit_contribution df)%list.
Proof.
  induction df as [| row rest IH]; intros acc; cbn [edit_data_loop flat_map].
  - now rewrite app_nil_r.
  - unfold edit_contribution at 1.
    destruct (Loader.total_strings row >? 0); rewrite IH.
    + now rewrite <- app_assoc.
    + reflexivity.
Qed.

Lemma edit_rows_counts (row : Loader.Row) :
  from_loader row ->
  exists zs,
    Column.int_cells (map Count (edit_rows row)) = Some zs
    /\ Column.sum_Z zs = Loader.total_post_edited row.
Proof.
  intros Hrow.
  destruct (FrameFacts.from_loader_total row Hrow)
    as (c & Hc & _ & Hpe & _).
  destruct (ColumnFacts.counts_of_cells _ _ Hc)
    as (_ & E0 & E6 & E11 & Eo).
  unfold edit_rows. cbn [map Count]. rewrite E0, E6, E11, Eo.
  eexists. split; [reflexivity |].
  rewrite Hpe. unfold Column.sum_Z, Metrics.total_post_edited. cbn. lia.
Qed.

End EditFacts.



Module MeanFacts.

Import Column.

Lemma rates_between (c : Metrics.Counts) :
  Metrics.nonneg c ->
  FVal.between 0 100 (Metrics.human_intervention_rate c)
  /\ FVal.between 0 100 (Metrics.critical_edit_rate c).
Proof.
  intros (Ha & H0 & H6 & H11 & Ho).
  unfold Metrics.human_intervention_rate, Metrics.critical_edit_rate,
    FVal.np_where.
  destruct (Z.gtb_spec (Metrics.total_strings c) 0) as [Ht | Ht].
  - split; apply FValFacts.percentage_between;
      unfold Metrics.total_post_edited, Metrics.total_strings in *; lia.
  - unfold FVal.of_Z, FVal.between. change (inject_Z 0) with 0%Q.
    split; split; lra.
Qed.

Lemma counted_rates (row : Loader.Row) :
  counted row ->
  FVal.between 0 100 (Loader.human_intervention_rate row)
  /\ FVal.between 0 100 (Loader.critical_edit_rate row).
Proof.
  intros (c & _ & Hrow & Hn). rewrite Hrow. cbn.
  now apply rates_between.
Qed.

Lemma fold_add_between (vs : list fval) :
  Forall (FVal.between 0 100) vs ->
  forall acc,
    exists s,
      fold_left FVal.add vs (Fin acc) = Fin s
      /\ (acc <= s
          /\ s <= acc + inject_Z (Z.of_nat (List.length vs)) * 100)%Q.
Proof.
  induction 1 as [| v rest Hv _ IH]; intros acc.
  - exists acc. cbn [fold_left List.length Z.of_nat].
    change (inject_Z 0) with 0%Q. split; [reflexivity | split; lra].
  - destruct v as [q | | |]; try contradiction.
    destruct Hv as [Hlo Hhi]. cbn [fold_left FVal.add].
    destruct (IH (acc + q)%Q) as (s & Hs & Hs0 & Hs1).
    exists s. split; [exact Hs |].
    cbn [List.length]. rewrite Nat2Z.inj_succ. unfold Z.succ.
    rewrite inject_Z_plus. change (inject_Z 1) with 1%Q.
    split; lra.
Qed.

Lemma filter_keeps_finite (vs : list fval) :
  Forall (FVal.between 0 100) vs ->
  filter (fun v => negb (is_nan v)) vs = vs.
Proof.
  induction 1 as [| v rest Hv _ IH]; [reflexivity |].
  destruct v; try contradiction. cbn. now rewrite IH.
Qed.

Lemma mean_between (vs : list fval) :
  vs <> [] ->
  Forall (FVal.between 0 100) vs ->
  FVal.between 0 100 (mean vs).
Proof.
  intros Hne Hall. unfold mean, sum.
  rewrite (filter_keeps_finite vs Hall).
  destruct vs as [| v rest]; [contradiction |].
  destruct (fold_add_between (v :: rest) Hall 0) as (s & -> & Hs0 & Hs1).
  cbn [div_count FVal.between].
  set (n := inject_Z (Z.of_nat (List.length (v :: rest)))) in *.
  assert (Hn : (0 < n)%Q).
  { subst n. apply FValFacts.inject_Z_pos. cbn [List.length]. lia. }
  split.
  - apply Qle_shift_div_l; [exact Hn | lra].
  - apply Qle_shift_div_r; [exact Hn | lra].
Qed.

Lemma column_between (f : Loader.Row -> fval) (df : list Loader.Row) :
  (forall row, counted row -> FVal.between 0 100 (f row)) ->
  Forall counted df ->
  Forall (FVal.between 0 100) (map f df).
Proof.
  intros Hf. induction 1 as [| row rest Hrow _ IH]; cbn [map];
    constructor; [now apply Hf | exact IH].
Qed.

(** The "other" counts of a frame and the post-edited totals. *)
Lemma other_counts (df : list Loader.Row) :
  Forall counted df ->
  exists others,
    int_cells (map (fun r => Loader.post_edited_other (Loader.flat r)) df)
    = Some others
    /\ 0 <= sum_Z others
    /\ sum_Z others <= sum_Z (map Loader.total_post_edited df).
Proof.
  induction 1 as [| row rest Hrow _ (zs & Hz & Hz0 & Hz1)].
  - exists []. cbn. split; [reflexivity | split; lia].
  - destruct Hrow as (c & Hc & Hrow & (Ha & H0 & H6 & H11 & Ho)).
    destruct (ColumnFacts.counts_of_cells _ _ Hc) as (_ & _ & _ & _ & Eo).
    exists (Metrics.post_edited_other c :: zs).
    cbn [map int_cells]. rewrite Eo, Hz. cbn [Loader.int_cell].
    split; [reflexivity |].
    rewrite !ColumnFacts.sum_Z_cons, Hrow. cbn [Loader.total_post_edited
      Loader.derive]. unfold Metrics.total_post_edited. split; lia.
Qed.

End MeanFacts.





(* ===================================================================== *)
(** * The temporal extractor: malformed entries, provenance, size *)
(* ===================================================================== *)

Module TemporalMore.

Import Temporal PyFacts.

(** When the day total is a number, each of the five values read from
    the entry is a number. *)
Lemma total_day_numbers (stats total : json) (q : Q) :
  total_day stats = inr total -> num total = Some q ->
  forall v,
    get stats "approvedWithoutEdit" (JInt 0) = inr v
    \/ bucket stats "0-5" = inr v \/ bucket stats "6-10" = inr v
    \/ bucket stats "11-15" = inr v \/ bucket stats "other" = inr v ->
    num v <> None.
Proof.
  intros Ht Hq v Hv.
  destruct (TemporalFacts.total_day_inv stats total Ht)
    as (a & p0 & p6 & p11 & po & s1 & s2 & s3
        & Ga & G0 & G6 & G11 & Go & A1 & A2 & A3 & A4).
  destruct (add_num_inv _ _ _ _ A4 Hq) as (q3 & qo & N3 & No & _).
  destruct (add_num_inv _ _ _ _ A3 N3) as (q2 & q11 & N2 & N11 & _).
  destruct (add_num_inv _ _ _ _ A2 N2) as (q1 & q6 & N1 & N6 & _).
  destruct (add_num_inv _ _ _ _ A1 N1) as (qa & q0 & Na & N0 & _).
  destruct Hv as [Hv | [Hv | [Hv | [Hv | Hv]]]];
    [rewrite Ga in Hv | rewrite G0 in Hv | rewrite G6 in Hv
     | rewrite G11 in Hv | rewrite Go in Hv];
    injection Hv as <-; congruence.
Qed.

Lemma total_day_method_stats (a p0 p6 p11 po w : Z) :
  total_day (Sample.method_stats a p0 p6 p11 po w)
  = inr (JInt (a + p0 + p6 + p11 + po)).
Proof. reflexivity. Qed.

Lemma post_edited_day_method_stats (a p0 p6 p11 po w : Z) :
  post_edited_day (Sample.method_stats a p0 p6 p11 po w)
  = inr (JInt (p0 + p6 + p11 + po)).
Proof. reflexivity. Qed.

Section Extractor.

Variable Timestamp : Type.
Variable to_datetime : string -> E Timestamp.

(** Where each field of an appended record comes from. *)
Lemma day_entry_fields (row : Loader.Row) (date_str : string) (stats : json)
    (tr : TemporalRecord Timestamp) :
  day_entry to_datetime row date_str stats = inr (Some tr) ->
  to_datetime date_str = inr (date tr)
  /\ project tr = Loader.project (Loader.flat row)
  /\ language tr = Loader.language (Loader.flat row)
  /\ method tr = Loader.method (Loader.flat row)
  /\ get stats "approvedWithoutEdit" (JInt 0) = inr (approved_without_edit tr)
  /\ total_day stats = inr (total_strings tr)
  /\ bucket stats "other" = inr (critical_edits tr).
Proof.
  unfold day_entry. intros H.
  destruct (to_datetime date_str) as [? | date_obj];
    [discriminate |]; cbn [bind] in H.
  destruct (total_day stats) as [? | total];
    [discriminate |]; cbn [bind] in H.
  destruct (gt0 total) as [? | [|]]; try discriminate; cbn [bind] in H.
  destruct (get stats "approvedWithoutEdit" (JInt 0)) as [? | a];
    [discriminate |]; cbn [bind] in H.
  destruct (truediv a total) as [? | q]; [discriminate |]; cbn [bind] in H.
  destruct (post_edited_day stats) as [? | pe];
    [discriminate |]; cbn [bind] in H.
  destruct (truediv pe total) as [? | q']; [discriminate |]; cbn [bind] in H.
  destruct (bucket stats "other") as [? | po];
    [discriminate |]; cbn [bind] in H.
  injection H as <-. cbn. repeat split.
Qed.

Lemma emitted_length (row : Loader.Row) (entry : string * json) :
  (List.length (emitted to_datetime row entry) <= 1)%nat.
Proof.
  unfold emitted.
  destruct (day_entry to_datetime row (fst entry) (snd entry))
    as [e | [tr |]]; simpl; lia.
Qed.

Lemma flat_map_emitted_length (row : Loader.Row)
    (entries : list (string * json)) :
  (List.length (flat_map (emitted to_datetime row) entries)
   <= List.length entries)%nat.
Proof.
  induction entries as [| entry rest IH]; [simpl; lia |].
  cbn [flat_map]. rewrite length_app.
  pose proof (emitted_length row entry). cbn [List.length]. lia.
Qed.

End Extractor.

End TemporalMore.

(** X19. An entry of a temporal mapping that is not an object, or one of
    whose five counts is not a number (a string, a list, [null]), adds no
    record to the table; nothing is raised and the other entries are read
    as usual. *)
Theorem X19_malformed_entries_are_skipped :
  forall (Timestamp : Type) (to_datetime : string -> E Timestamp)
         (row : Loader.Row) (date_str : string) (stats : json),
    (is_dict stats = false ->
     Temporal.emitted to_datetime row (date_str, stats) = [])
    /\ (forall v,
          get stats "approvedWithoutEdit" (JInt 0) = inr v
          \/ Temporal.bucket stats "0-5" = inr v
          \/ Temporal.bucket stats "6-10" = inr v
          \/ Temporal.bucket stats "11-15" = inr v
          \/ Temporal.bucket stats "other" = inr v ->
          num v = None ->
          Temporal.emitted to_datetime row (date_str, stats) = []).
Proof.
  intros Timestamp to_datetime row date_str stats. split.
  - intros Hd.
    destruct (TemporalFacts.emitted_cases Timestamp to_datetime row
                (date_str, stats)) as [[Hu _] | [_ Hn]]; [| exact Hn].
    destruct Hu as [_ (total & q & Ht & _)]. cbn [snd] in Ht.
    destruct stats; try discriminate Hd; discriminate Ht.
  - intros v Hv Hnone.
    destruct (TemporalFacts.emitted_cases Timestamp to_datetime row
                (date_str, stats)) as [[Hu _] | [_ Hn]]; [| exact Hn].
    destruct Hu as [_ (total & q & Ht & Hq & _)]. cbn [snd] in Ht.
    exfalso.
    exact (TemporalMore.total_day_numbers stats total q Ht Hq v Hv Hnone).
Qed.

Lemma X19_malformed_entries_are_skipped_witness :
  Temporal.emitted Sample.to_datetime Sample.row ("2024-01-05", JList []) = []
  /\ Temporal.emitted Sample.to_datetime Sample.row
       ("2024-01-05",
        JDict [("approvedWithoutEdit", JStr "12");
               ("postEdited", JDict [("0-5", JStr "3")])])
     = [].
Proof.
  split.
  - exact (proj1 (X19_malformed_entries_are_skipped string Sample.to_datetime
                    Sample.row "2024-01-05" (JList [])) eq_refl).
  - exact (proj2 (X19_malformed_entries_are_skipped string Sample.to_datetime
                    Sample.row "2024-01-05"
                    (JDict [("approvedWithoutEdit", JStr "12");
                            ("postEdited", JDict [("0-5", JStr "3")])]))
             (JStr "12") (or_introl eq_refl) eq_refl).
Defined.



(** X21. Every record of the temporal table is read from one entry of
    the temporal mapping of one row of the frame: its date is that
    entry's key as [pd.to_datetime] returns it, its project, language
    and method are the row's, and its three count fields are the entry's
    approved count, day total and "other" count. *)
Theorem X21_temporal_record_provenance :
  forall (Timestamp : Type) (to_datetime : string -> E Timestamp)
         (df : list Loader.Row) (tr : Temporal.TemporalRecord Timestamp),
    In tr (Temporal.create_temporal_data to_datetime df) ->
    exists row date_str stats,
      In row df
      /\ In (date_str, stats)
            (Temporal.dict_items (Loader.temporal_data (Loader.flat row)))
      /\ to_datetime date_str = inr (Temporal.date tr)
      /\ Temporal.project tr = Loader.project (Loader.flat row)
      /\ Temporal.language tr = Loader.language (Loader.flat row)
      /\ Temporal.method tr = Loader.method (Loader.flat row)
      /\ get stats "approvedWithoutEdit" (JInt 0)
         = inr (Temporal.approved_without_edit tr)
      /\ Temporal.total_day stats = inr (Temporal.total_strings tr)
      /\ Temporal.bucket stats "other" = inr (Temporal.critical_edits tr).
Proof.
  intros Timestamp to_datetime df tr Hin.
  apply TemporalFacts.create_temporal_data_origin in Hin.
  destruct Hin as (row & date_str & stats & Hrow & Hentry & Hd).
  exists row, date_str, stats.
  split; [exact Hrow | split; [exact Hentry |]].
  exact (TemporalMore.day_entry_fields _ _ _ _ _ _ Hd).
Qed.

Lemma X21_temporal_record_provenance_witness :
  In Sample.day_record
     (Temporal.create_temporal_data Sample.to_datetime [Sample.row])
  /\ exists row date_str stats,
       In row [Sample.row]
       /\ In (date_str, stats)
             (Temporal.dict_items (Loader.temporal_data (Loader.flat row)))
       /\ Sample.to_datetime date_str = inr (Temporal.date Sample.day_record)
       /\ Temporal.total_day stats
          = inr (Temporal.total_strings Sample.day_record).
Proof.
  assert (H : In Sample.day_record
                (Temporal.create_temporal_data Sample.to_datetime [Sample.row]))
    by (left; reflexivity).
  split; [exact H |].
  destruct (X21_temporal_record_provenance _ _ _ _ H)
    as (row & d & stats & H1 & H2 & H3 & _ & _ & _ & _ & H4 & _).
  exists row, d, stats. repeat split; assumption.
Defined.

(** X22. The temporal table never holds more records than the temporal
    mappings of the frame hold entries. *)
Theorem X22_temporal_table_size :
  forall (Timestamp : Type) (to_datetime : string -> E Timestamp)
         (df : list Loader.Row),
    (List.length (Temporal.create_temporal_data to_datetime df)
     <= list_sum
          (map (fun row =>
                  List.length
                    (Temporal.dict_items
                       (Loader.temporal_data (Loader.flat row)))) df))%nat.
Proof.
  intros Timestamp to_datetime df.
  rewrite TemporalFacts.create_temporal_data_records.
  induction df as [| row rest IH]; [simpl; lia |].
  cbn [flat_map map]. unfold list_sum in *. cbn [fold_right].
  rewrite length_app.
  assert (H : (List.length (Temporal.row_records to_datetime row)
               <= List.length
                    (Temporal.dict_items
                       (Loader.temporal_data (Loader.flat row))))%nat).
  { unfold Temporal.row_records.
    destruct (truthy _ && is_dict _).
    - apply TemporalMore.flat_map_emitted_length.
    - simpl. lia. }
  lia.
Qed.
